(** * The [pyannote-audio] command line dispatcher

    A shallow embedding of [main] from
    [pyannote/audio/applications/pyannote_audio.py].

    [main] is straight-line Python: it reads the dictionary returned by
    [docopt], fills one mutable [params] dictionary and hands it, as keyword
    arguments, to [train], [validate] or [apply] of an [Application] object.
    The embedding is a state-and-exception monad whose state holds [params]
    and the sequence of calls made to code outside of the file (torch, pathlib,
    multiprocessing and the five application classes).  What these
    collaborators answer is read from an environment record. *)

From Stdlib Require Import ZArith String List.
From Stdlib Require Import Floats.SpecFloat.
From stdpp Require Import base option list sorting gmap strings pretty.

Open Scope string_scope.
Open Scope Z_scope.
Open Scope list_scope.

(** ** Python values and exceptions *)

(** [torch.device('cpu')] and [torch.device('cuda')]. *)
Inductive device := cpu | cuda.

(** The values [main] stores in [params] or passes around.  [VPath s] is
    [Path(s)]. *)
Inductive value :=
  | VNone
  | VBool (b : bool)
  | VInt (n : Z)
  | VFloat (x : spec_float)
  | VStr (s : string)
  | VPath (s : string)
  | VDevice (d : device).

Inductive exn_kind :=
  | ValueError
  | TypeError
  | KeyError
  | NameError
  | UnboundLocalError
  | FileNotFoundError
  | RuntimeError
  | SystemExit
  | KeyboardInterrupt
  | OtherError (name : string) (exception : bool).

(** An exception object: its class and [str(e)]. *)
Record exn := Exn { exn_kind_of : exn_kind; exn_text : string }.

(** [isinstance(e, Exception)]: what [except Exception] catches.
    [SystemExit] and [KeyboardInterrupt] derive from [BaseException] only;
    a class that is not listed says itself whether it derives from
    [Exception] ([HTTPError] does, [GeneratorExit] does not). *)
Definition is_Exception (k : exn_kind) : bool :=
  match k with
  | SystemExit | KeyboardInterrupt => false
  | OtherError _ exception => exception
  | _ => true
  end.

(** [type(e).__name__] *)
Definition kind_name (k : exn_kind) : string :=
  match k with
  | ValueError => "ValueError"
  | TypeError => "TypeError"
  | KeyError => "KeyError"
  | NameError => "NameError"
  | UnboundLocalError => "UnboundLocalError"
  | FileNotFoundError => "FileNotFoundError"
  | RuntimeError => "RuntimeError"
  | SystemExit => "SystemExit"
  | KeyboardInterrupt => "KeyboardInterrupt"
  | OtherError name _ => name
  end.

(** ** The collaborators *)

(** The five application classes imported at lines 246-250. *)
Inductive AppClass :=
  | SpeechActivityDetection
  | SpeakerChangeDetection
  | OverlapDetection
  | SpeakerEmbedding
  | DomainClassification.

(** The three ways [main] obtains an application object:
    [Application(root_dir, ...)], [Application.from_train_dir(...)] and
    [Application.from_validate_dir(...)]. *)
Inductive Ctor := Init | FromTrainDir | FromValidateDir.

(** The three lifecycle methods. *)
Inductive Mode := Train | Validate | Apply.

(** [app.task_], of which [main] reads the attributes [duration] and
    [metric] through [getattr(app.task_, name, None)]: [None] here is an
    attribute that is not there. *)
Record Task := { task_duration : option value; task_metric : option value }.

Record App := {
  app_class : AppClass;
  app_ctor : Ctor;
  app_dir : string;
  app_training : bool;
  task_ : Task
}.

(** What [main] asks of the world outside the file, in the order of the
    calls. *)
Inductive event :=
  | EvProbe (d : value)
      (* torch.Tensor([0]).to(d) *)
  | EvResolve (p : string)
      (* Path(p).expanduser().resolve(strict=True) *)
  | EvConstruct (c : AppClass) (k : Ctor) (dir : string) (training : bool)
  | EvExists (p : string)
      (* Path(p).exists() *)
  | EvHubLoad (name : string)
      (* torch.hub.load('pyannote/pyannote-audio:v2', name, return_path=True) *)
  | EvCpuCount
      (* multiprocessing.cpu_count() *)
  | EvCall (m : Mode) (app : App) (protocol : value)
           (kwargs : gmap string value).
      (* app.train(protocol, **params) and its two siblings *)

(** The answers of the collaborators. *)
Record Env := {
  (* int(s) of a string; None is its ValueError *)
  py_int : string -> option Z;
  (* float(s) of a string; None is its ValueError *)
  py_float : string -> option spec_float;
  (* torch.Tensor([0]).to(d); Some e when it raises e *)
  to_device : device -> option exn;
  (* Path(p).expanduser().resolve(strict=True); None is FileNotFoundError *)
  resolve_strict : string -> option string;
  path_exists : string -> bool;
  hub_load : string -> exn + value;
  cpu_count : Z;
  (* the constructors of the application classes *)
  build : AppClass -> Ctor -> string -> bool -> exn + Task;
  (* Some e when the lifecycle method raises e *)
  lifecycle : Mode -> App -> value -> gmap string value -> option exn
}.

(** ** The dictionary returned by [docopt]

    One field per key that [main] reads.  Options that carry a
    [[default: ...]] in the usage text are always strings, the others are
    [None] when absent; flags and commands are booleans. *)
Record Args := {
  arg_sad : bool;
  arg_scd : bool;
  arg_ovl : bool;
  arg_emb : bool;
  arg_dom : bool;
  arg_train : bool;
  arg_validate : bool;
  arg_apply : bool;
  arg_root : option string;          (* <root> *)
  arg_train_dir : option string;     (* <train> *)
  arg_validate_dir : option string;  (* <validate> *)
  arg_protocol : option string;      (* <protocol> *)
  arg_subset : option string;        (* --subset *)
  arg_gpu : bool;                    (* --gpu *)
  arg_from : string;                 (* --from *)
  arg_to : string;                   (* --to *)
  arg_batch : string;                (* --batch *)
  arg_step : string;                 (* --step *)
  arg_duration : option string;      (* --duration *)
  arg_metric : option string;        (* --metric *)
  arg_pretrained : option string;    (* --pretrained *)
  arg_every : string;                (* --every *)
  arg_evergreen : bool;              (* --evergreen *)
  arg_parallel : option string;      (* --parallel *)
  arg_purity : string;               (* --purity *)
  arg_diarization : bool;            (* --diarization *)
  arg_precision : string             (* --precision *)
}.

(** The defaults of the usage text (lines 171-225). *)
Module Default.
Definition from := "0".
Definition to := "100".
Definition batch := "32".
Definition step := "0.25".
Definition every := "1".
Definition purity := "0.9".
Definition precision := "0.8".
End Default.

(** The positional argument of each usage pattern (lines 35-37). *)
Definition positional (m : Mode) (arg : Args) : option string :=
  match m with
  | Train => arg_root arg
  | Validate => arg_train_dir arg
  | Apply => arg_validate_dir arg
  end.

(** [only m arg]: the commands of [arg] are those of the usage pattern of
    mode [m], which has exactly one of [train], [validate] and [apply]. *)
Definition only (m : Mode) (arg : Args) : Prop :=
  arg_train arg = match m with Train => true | _ => false end /\
  arg_validate arg = match m with Validate => true | _ => false end /\
  arg_apply arg = match m with Apply => true | _ => false end.

(** ** The monad *)

Record State := {
  params : gmap string value;   (* the dictionary [params] *)
  trace : list event            (* the calls made so far *)
}.

(** [Err e c]: exception [e] propagates; [c] is the exception that was
    being handled when [e] was raised ([e.__context__]). *)
Inductive Res (A : Type) :=
  | Ok (a : A)
  | Err (e : exn) (context : option exn).
Arguments Ok {A} a.
Arguments Err {A} e context.

Definition M (A : Type) : Type := State -> Res A * State.

Definition ret {A} (a : A) : M A := fun s => (Ok a, s).

Definition bind {A B} (m : M A) (k : A -> M B) : M B :=
  fun s =>
    match m s with
    | (Ok a, s') => k a s'
    | (Err e c, s') => (Err e c, s')
    end.

Definition raise {A} (e : exn) : M A := fun s => (Err e None, s).

(** [raise] inside an [except ... as e0] block. *)
Definition raise_handling {A} (e0 e : exn) : M A :=
  fun s => (Err e (Some e0), s).

Definition emit (ev : event) : M unit :=
  fun s => (Ok tt, {| params := params s; trace := trace s ++ [ev] |}).

(** [params[k] = v] *)
Definition setitem (k : string) (v : value) : M unit :=
  fun s => (Ok tt, {| params := <[k := v]> (params s); trace := trace s |}).

(** [params[k]] *)
Definition getitem (k : string) : M value :=
  fun s =>
    match params s !! k with
    | Some v => (Ok v, s)
    | None => (Err (Exn KeyError k) None, s)
    end.

(** The dictionary built by [**params] at a call: a copy of [params]. *)
Definition unpack : M (gmap string value) := fun s => (Ok (params s), s).

Global Instance M_ret : MRet M := @ret.
Global Instance M_bind : MBind M := fun A B k m => bind m k.

(** [if b: body] *)
Definition when (b : bool) (body : M unit) : M unit :=
  if b then body else mret tt.

(** [params = {}] and nothing called yet. *)
Definition initial : State := {| params := ∅; trace := [] |}.

(** ** The text of the module *)

(** The names bound at module level: the imports of lines 240-250 and
    [main] itself. *)
Definition module_names : list string :=
  ["docopt"; "Path"; "multiprocessing"; "torch";
   "SpeechActivityDetection"; "SpeakerChangeDetection"; "OverlapDetection";
   "SpeakerEmbedding"; "DomainClassification"; "main"].

Definition quote : string := String (Ascii.ascii_of_nat 34) EmptyString.
Definition newline : string := String (Ascii.ascii_of_nat 10) EmptyString.

(** [repr] of a string, for the messages of the built-in exceptions
    (without the escapes of the real one). *)
Definition repr (s : string) : string := "'" +:+ s +:+ "'".

(** The message built at lines 307-309; [warm_start] is still the integer of
    line 291 there. *)
Definition hub_msg (warm_start : Z) (e : exn) : string :=
  "Could not load " +:+ quote +:+ pretty warm_start +:+ quote +:+
  " model from torch.hub." +:+
  "The following exception was raised:" +:+ newline +:+ newline +:+
  exn_text e +:+ newline +:+ newline.

(** Lines 344-345 and 377-378. *)
Definition duration_msg : string :=
  "Task has no 'duration' defined. " +:+
  "Use '--duration' option to provide one.".

(** Lines 359-360. *)
Definition metric_msg : string :=
  "Approach has no 'metric' defined. " +:+
  "Use '--metric' option to provide one.".

(** The error of [resolve(strict=True)] on a path that does not exist. *)
Definition not_a_path (p : string) : exn :=
  Exn FileNotFoundError ("[Errno 2] No such file or directory: " +:+ repr p).

(** The error of reading the name [sys], which nothing binds. *)
Definition unbound_sys : exn := Exn NameError "name 'sys' is not defined".

(** [getattr(obj, name, None)] of an attribute that may be missing. *)
Definition getattr (attribute : option value) : value :=
  default VNone attribute.

Definition is_None (v : value) : bool :=
  match v with VNone => true | _ => false end.

(** Lines 260-273: the [if]/[elif] chain binds [Application], or leaves it
    unbound when no task flag is set. *)
Definition select_application (arg : Args) : option AppClass :=
  if arg_sad arg then Some SpeechActivityDetection
  else if arg_scd arg then Some SpeakerChangeDetection
  else if arg_ovl arg then Some OverlapDetection
  else if arg_emb arg then Some SpeakerEmbedding
  else if arg_dom arg then Some DomainClassification
  else None.

(** [value] of an option of docopt: a string or [None]. *)
Definition of_option (o : option string) : value :=
  match o with Some s => VStr s | None => VNone end.

Section Program.

Context (env : Env).

(** [int(s)] *)
Definition int_ (s : string) : M Z :=
  match py_int env s with
  | Some n => mret n
  | None =>
      raise (Exn ValueError
               ("invalid literal for int() with base 10: " +:+ repr s))
  end.

(** [int(v)] of a string or of an integer. *)
Definition int_of_value (v : value) : M Z :=
  match v with
  | VInt n => mret n
  | VStr s => int_ s
  | _ => raise (Exn TypeError "int() argument must be a string or a number")
  end.

(** [float(s)] *)
Definition float_ (s : string) : M spec_float :=
  match py_float env s with
  | Some x => mret x
  | None =>
      raise (Exn ValueError
               ("could not convert string to float: " +:+ repr s))
  end.

(** Line 279: [torch.Tensor([0]).to(d)]. *)
Definition probe (d : value) : M unit :=
  emit (EvProbe d);;
  match d with
  | VDevice dv =>
      match to_device env dv with
      | Some e => raise e
      | None => mret tt
      end
  | _ => raise (Exn TypeError "to() received an invalid argument")
  end.

(** [Path(p).expanduser().resolve(strict=True)] *)
Definition resolve (p : option string) : M string :=
  match p with
  | None =>
      raise (Exn TypeError
               "expected str, bytes or os.PathLike object, not NoneType")
  | Some p =>
      emit (EvResolve p);;
      match resolve_strict env p with
      | Some dir => mret dir
      | None => raise (not_a_path p)
      end
  end.

(** [Application(dir, training=...)], [Application.from_train_dir(...)]
    and [Application.from_validate_dir(...)]. *)
Definition instantiate (Application : option AppClass) (k : Ctor)
    (dir : string) (training : bool) : M App :=
  match Application with
  | None =>
      raise (Exn UnboundLocalError
               "local variable 'Application' referenced before assignment")
  | Some c =>
      emit (EvConstruct c k dir training);;
      match build env c k dir training with
      | inl e => raise e
      | inr t =>
          mret {| app_class := c; app_ctor := k; app_dir := dir;
                  app_training := training; task_ := t |}
      end
  end.

(** [Path(p).exists()] *)
Definition exists_ (p : string) : M bool :=
  emit (EvExists p);; mret (path_exists env p).

(** [sys.exit(msg)] inside the handler of [e0]: the name [sys] is looked
    up among the names of the module first. *)
Definition sys_exit {A} (e0 : exn) (msg : string) : M A :=
  if bool_decide ("sys" ∈ module_names)
  then raise_handling e0 (Exn SystemExit msg)
  else raise_handling e0 unbound_sys.

(** Lines 303-310. *)
Definition load_from_hub (pretrained : string) (warm_start : Z) : M value :=
  emit (EvHubLoad pretrained);;
  match hub_load env pretrained with
  | inr path => mret path
  | inl e =>
      if is_Exception (exn_kind_of e)
      then sys_exit e (hub_msg warm_start e)
      else raise e
  end.

(** [app.train(protocol, **params)] and its two siblings. *)
Definition call (m : Mode) (app : App) (protocol : value) : M unit :=
  kwargs ← unpack;
  emit (EvCall m app protocol kwargs);;
  match lifecycle env m app protocol kwargs with
  | Some e => raise e
  | None => mret tt
  end.

(** Lines 340-348, and again 373-381. *)
Definition duration_of (arg : Args) (app : App) : M value :=
  match arg_duration arg with
  | None =>
      let duration := getattr (task_duration (task_ app)) in
      if is_None duration
      then raise (Exn ValueError duration_msg)
      else mret duration
  | Some s => x ← float_ s; mret (VFloat x)
  end.

(** Lines 355-361. *)
Definition metric_of (arg : Args) (app : App) : M value :=
  match arg_metric arg with
  | None =>
      let metric := getattr (task_metric (task_ app)) in
      if is_None metric
      then raise (Exn ValueError metric_msg)
      else mret metric
  | Some s => mret (VStr s)
  end.

(** Lines 285-317. *)
Definition train_branch (arg : Args) (Application : option AppClass)
    (protocol : value) (subset : option string) : M unit :=
  root_dir ← resolve (arg_root arg);
  app ← instantiate Application Init root_dir true;
  setitem "subset" (VStr (default "train" subset));;
  warm_start ← int_ (arg_from arg);
  warm_start ←
    match arg_pretrained arg with
    | Some pretrained =>
        there ← exists_ pretrained;
        if there : bool
        then mret (VPath pretrained)
        else load_from_hub pretrained warm_start
    | None => mret (VInt warm_start)
    end;
  setitem "warm_start" warm_start;;
  epochs ← int_ (arg_to arg);
  setitem "epochs" (VInt epochs);;
  call Train app protocol.

(** Lines 321-364. *)
Definition validate_branch (arg : Args) (Application : option AppClass)
    (protocol : value) (subset : option string) : M unit :=
  train_dir ← resolve (arg_train_dir arg);
  app ← instantiate Application FromTrainDir train_dir false;
  setitem "subset" (VStr (default "development" subset));;
  start ← int_ (arg_from arg);
  setitem "start" (VInt start);;
  end_ ← int_ (arg_to arg);
  setitem "end" (VInt end_);;
  every ← int_ (arg_every arg);
  setitem "every" (VInt every);;
  setitem "chronological" (VBool (negb (arg_evergreen arg)));;
  batch_size ← int_ (arg_batch arg);
  setitem "batch_size" (VInt batch_size);;
  n_jobs ←
    match arg_parallel arg with
    | None => emit EvCpuCount;; mret (VInt (cpu_count env))
    | Some s => mret (VStr s)
    end;
  n_jobs ← int_of_value n_jobs;
  setitem "n_jobs" (VInt n_jobs);;
  purity ← float_ (arg_purity arg);
  setitem "purity" (VFloat purity);;
  setitem "diarization" (VBool (arg_diarization arg));;
  precision ← float_ (arg_precision arg);
  setitem "precision" (VFloat precision);;
  duration ← duration_of arg app;
  setitem "duration" duration;;
  step ← float_ (arg_step arg);
  setitem "step" (VFloat step);;
  when (arg_emb arg)
    (metric ← metric_of arg app;
     setitem "metric" metric);;
  call Validate app protocol.

(** Lines 367-386. *)
Definition apply_branch (arg : Args) (Application : option AppClass)
    (protocol : value) (subset : option string) : M unit :=
  validate_dir ← resolve (arg_validate_dir arg);
  app ← instantiate Application FromValidateDir validate_dir false;
  setitem "subset" (VStr (default "test" subset));;
  batch_size ← int_ (arg_batch arg);
  setitem "batch_size" (VInt batch_size);;
  duration ← duration_of arg app;
  setitem "duration" duration;;
  step ← float_ (arg_step arg);
  setitem "step" (VFloat step);;
  call Apply app protocol.

(** Lines 258-386, after [arg = docopt(...)]. *)
Definition main (arg : Args) : M unit :=
  let Application := select_application arg in
  setitem "device" (VDevice (if arg_gpu arg then cuda else cpu));;
  d ← getitem "device";
  probe d;;
  let protocol := of_option (arg_protocol arg) in
  let subset := arg_subset arg in
  when (arg_train arg) (train_branch arg Application protocol subset);;
  when (arg_validate arg) (validate_branch arg Application protocol subset);;
  when (arg_apply arg) (apply_branch arg Application protocol subset).

(** One run of the program: [params = {}] at line 258, then the rest. *)
Definition run (arg : Args) : Res unit * State := main arg initial.

End Program.

(** ** Command lines

    [docopt c m dir protocol opts] is the dictionary [docopt] returns for a
    command line that matches the usage pattern of mode [m] (lines 35-37)
    with task [c], the two positional arguments and the options [opts]
    (a flag is given with an empty value).  Options with a default that are
    not given take the default of the usage text. *)

Fixpoint given (opts : list (string * string)) (name : string)
    : option string :=
  match opts with
  | [] => None
  | (k, v) :: rest => if String.eqb k name then Some v else given rest name
  end.

Definition flag (opts : list (string * string)) (name : string) : bool :=
  bool_decide (is_Some (given opts name)).

Definition docopt (c : AppClass) (m : Mode) (dir protocol : string)
    (opts : list (string * string)) : Args :=
  {| arg_sad := match c with SpeechActivityDetection => true | _ => false end;
     arg_scd := match c with SpeakerChangeDetection => true | _ => false end;
     arg_ovl := match c with OverlapDetection => true | _ => false end;
     arg_emb := match c with SpeakerEmbedding => true | _ => false end;
     arg_dom := match c with DomainClassification => true | _ => false end;
     arg_train := match m with Train => true | _ => false end;
     arg_validate := match m with Validate => true | _ => false end;
     arg_apply := match m with Apply => true | _ => false end;
     arg_root := match m with Train => Some dir | _ => None end;
     arg_train_dir := match m with Validate => Some dir | _ => None end;
     arg_validate_dir := match m with Apply => Some dir | _ => None end;
     arg_protocol := Some protocol;
     arg_subset := given opts "--subset";
     arg_gpu := flag opts "--gpu";
     arg_from := default Default.from (given opts "--from");
     arg_to := default Default.to (given opts "--to");
     arg_batch := default Default.batch (given opts "--batch");
     arg_step := default Default.step (given opts "--step");
     arg_duration := given opts "--duration";
     arg_metric := given opts "--metric";
     arg_pretrained := given opts "--pretrained";
     arg_every := default Default.every (given opts "--every");
     arg_evergreen := flag opts "--evergreen";
     arg_parallel := given opts "--parallel";
     arg_purity := default Default.purity (given opts "--purity");
     arg_diarization := flag opts "--diarization";
     arg_precision := default Default.precision (given opts "--precision") |}.

(** ** A sample environment

    A machine with eight cores and no accelerator trouble, an experiment
    directory [/exp], one checkpoint, and a model registry that is out of
    reach. *)
Module Sample.

Fixpoint digits (s : string) (acc : Z) : option Z :=
  match s with
  | EmptyString => Some acc
  | String c rest =>
      let n := Z.of_nat (Ascii.nat_of_ascii c) - 48 in
      if (0 <=? n) && (n <=? 9) then digits rest (10 * acc + n) else None
  end.

(** [int] on plain decimal numerals. *)
Definition int (s : string) : option Z :=
  match s with
  | EmptyString => None
  | _ => digits s 0
  end.

(** [float] on the numerals the samples use, as binary64 values. *)
Definition float (s : string) : option spec_float :=
  if String.eqb s "0.25" then Some (S754_finite false 4503599627370496 (-54))
  else if String.eqb s "0.8" then Some (S754_finite false 7205759403792794 (-53))
  else if String.eqb s "0.9" then Some (S754_finite false 8106479329266893 (-53))
  else if String.eqb s "2.0" then Some (S754_finite false 4503599627370496 (-51))
  else None.

Definition two : value := VFloat (S754_finite false 4503599627370496 (-51)).

(** A task with a fixed duration and a metric. *)
Definition configured : Task :=
  {| task_duration := Some two; task_metric := Some (VStr "cosine") |}.

(** A task with neither. *)
Definition bare : Task := {| task_duration := None; task_metric := None |}.

Definition not_found : exn :=
  Exn (OtherError "HTTPError" true) "HTTP Error 404: Not Found".

Definition world (t : Task) : Env :=
  {| py_int := int;
     py_float := float;
     to_device := fun _ => None;
     resolve_strict := fun p => if String.eqb p "/exp" then Some "/exp" else None;
     path_exists := fun p => String.eqb p "/exp/weights/0050.pt";
     hub_load := fun _ => inl not_found;
     cpu_count := 8;
     build := fun _ _ _ _ => inr t;
     lifecycle := fun _ _ _ _ => None |}.

Definition env : Env := world configured.

Definition protocol : string := "Debug.SpeakerDiarization.Debug".

End Sample.

(** The application object a branch of mode [m] obtains in the sample
    environment. *)
Definition sample_app (c : AppClass) (m : Mode) (t : Task) : App :=
  {| app_class := c;
     app_ctor := match m with
                 | Train => Init
                 | Validate => FromTrainDir
                 | Apply => FromValidateDir
                 end;
     app_dir := "/exp";
     app_training := match m with Train => true | _ => false end;
     task_ := t |}.

(** [pyannote-audio sad train --pretrained=emb_voxceleb /exp <protocol>] *)
Definition train_from_hub : Args :=
  docopt SpeechActivityDetection Train "/exp" Sample.protocol
    [("--pretrained", "emb_voxceleb")].

(** [pyannote-audio sad train --from=5 --pretrained=/exp/weights/0050.pt
    /exp <protocol>] *)
Definition train_from_checkpoint : Args :=
  docopt SpeechActivityDetection Train "/exp" Sample.protocol
    [("--from", "5"); ("--pretrained", "/exp/weights/0050.pt")].

(** [pyannote-audio sad train /nowhere <protocol>] *)
Definition train_nowhere : Args :=
  docopt SpeechActivityDetection Train "/nowhere" Sample.protocol [].

(** [pyannote-audio emb validate --parallel=4 /exp <protocol>] *)
Definition validate_embedding : Args :=
  docopt SpeakerEmbedding Validate "/exp" Sample.protocol
    [("--parallel", "4")].

(** [pyannote-audio emb validate --duration=2.0 /exp <protocol>] *)
Definition validate_with_duration : Args :=
  docopt SpeakerEmbedding Validate "/exp" Sample.protocol
    [("--duration", "2.0")].

(** [pyannote-audio sad validate /exp <protocol>] *)
Definition validate_speech : Args :=
  docopt SpeechActivityDetection Validate "/exp" Sample.protocol [].

(** [pyannote-audio scd apply --gpu /exp <protocol>] *)
Definition apply_on_gpu : Args :=
  docopt SpeakerChangeDetection Apply "/exp" Sample.protocol [("--gpu", "")].

(** A dictionary no command line gives: the three modes at once. *)
Definition all_modes : Args :=
  {| arg_sad := true; arg_scd := false; arg_ovl := false; arg_emb := false;
     arg_dom := false;
     arg_train := true; arg_validate := true; arg_apply := true;
     arg_root := Some "/exp"; arg_train_dir := Some "/exp";
     arg_validate_dir := Some "/exp";
     arg_protocol := Some Sample.protocol;
     arg_subset := None; arg_gpu := false;
     arg_from := Default.from; arg_to := Default.to;
     arg_batch := Default.batch; arg_step := Default.step;
     arg_duration := None; arg_metric := None; arg_pretrained := None;
     arg_every := Default.every; arg_evergreen := false;
     arg_parallel := None; arg_purity := Default.purity;
     arg_diarization := false; arg_precision := Default.precision |}.
(** ** Runs and what is observed of them *)

Definition result (env : Env) (arg : Args) : Res unit := (run env arg).1.

(** The state in which the run ends. *)
Definition final (env : Env) (arg : Args) : State := (run env arg).2.

Definition events (env : Env) (arg : Args) : list event :=
  trace (final env arg).

(** The lifecycle calls among the events, in order: the method, the
    receiver, the protocol and the keyword arguments. *)
Definition calls (t : list event)
    : list (Mode * App * value * gmap string value) :=
  omap (fun ev =>
          match ev with
          | EvCall m app p kwargs => Some (m, app, p, kwargs)
          | _ => None
          end) t.

(** The modes of the lifecycle calls, in order. *)
Definition called (t : list event) : list Mode :=
  (fun c => c.1.1.1) <$> calls t.

(** The keyword dictionaries of the lifecycle calls, in order. *)
Definition passed (t : list event) : list (gmap string value) :=
  snd <$> calls t.

Definition is_call (ev : event) : bool :=
  match ev with EvCall _ _ _ _ => true | _ => false end.

Definition is_construct (ev : event) : bool :=
  match ev with EvConstruct _ _ _ _ => true | _ => false end.

Definition is_probe (ev : event) : bool :=
  match ev with EvProbe _ => true | _ => false end.

(** [mentions word text]: [word] occurs in [text]. *)
Definition mentions (word text : string) : Prop :=
  exists before after, text = before +:+ word +:+ after.

(** [wp m Q s]: running [m] from state [s] ends in a result and a state that
    satisfy [Q].  Every action of the program is a total function, so this
    is total correctness. *)
Definition wp {A} (m : M A) (Q : Res A -> State -> Prop) (s : State) : Prop :=
  Q (m s).1 (m s).2.

(** The branch of [main] for each mode. *)
Definition branch (m : Mode)
    : Env -> Args -> option AppClass -> value -> option string -> M unit :=
  match m with
  | Train => train_branch
  | Validate => validate_branch
  | Apply => apply_branch
  end.

(** The device of lines 275-276. *)
Definition device_of (arg : Args) : value :=
  VDevice (if arg_gpu arg then cuda else cpu).

(** The state in which [main] reaches its three branches, when the probe
    of line 279 succeeds. *)
Definition probed (arg : Args) : State :=
  {| params := <["device" := device_of arg]> ∅;
     trace := [EvProbe (device_of arg)] |}.

(** ** Runs in which nothing else goes wrong *)

Definition ctor_of (m : Mode) : Ctor :=
  match m with
  | Train => Init
  | Validate => FromTrainDir
  | Apply => FromValidateDir
  end.

Definition training_of (m : Mode) : bool :=
  match m with Train => true | _ => false end.

(** [built env arg m app]: the device is there, the directory of mode [m]
    exists and [app] is the application object the branch of mode [m]
    obtains. *)
Definition built (env : Env) (arg : Args) (m : Mode) (app : App) : Prop :=
  to_device env (if arg_gpu arg then cuda else cpu) = None /\
  (exists p, positional m arg = Some p /\
             resolve_strict env p = Some (app_dir app)) /\
  select_application arg = Some (app_class app) /\
  app_ctor app = ctor_of m /\
  app_training app = training_of m /\
  build env (app_class app) (ctor_of m) (app_dir app) (training_of m)
  = inr (task_ app).

(** The numeric options that the branch of mode [m] converts are numerals. *)
Definition numbers_parse (env : Env) (arg : Args) (m : Mode) : Prop :=
  match m with
  | Train =>
      is_Some (py_int env (arg_from arg)) /\
      is_Some (py_int env (arg_to arg))
  | Validate =>
      is_Some (py_int env (arg_from arg)) /\
      is_Some (py_int env (arg_to arg)) /\
      is_Some (py_int env (arg_every arg)) /\
      is_Some (py_int env (arg_batch arg)) /\
      (forall s, arg_parallel arg = Some s -> is_Some (py_int env s)) /\
      is_Some (py_float env (arg_purity arg)) /\
      is_Some (py_float env (arg_precision arg)) /\
      is_Some (py_float env (arg_step arg))
  | Apply =>
      is_Some (py_int env (arg_batch arg)) /\
      is_Some (py_float env (arg_step arg))
  end.

Definition healthy (env : Env) (arg : Args) (m : Mode) (app : App) : Prop :=
  built env arg m app /\ numbers_parse env arg m.

(** A duration can be found: a [--duration] that is a numeral, or an
    attribute of the task. *)
Definition duration_resolves (env : Env) (arg : Args) (app : App) : Prop :=
  match arg_duration arg with
  | Some d => is_Some (py_float env d)
  | None => getattr (task_duration (task_ app)) <> VNone
  end.

(** A metric can be found. *)
Definition metric_resolves (arg : Args) (app : App) : Prop :=
  match arg_metric arg with
  | Some _ => True
  | None => getattr (task_metric (task_ app)) <> VNone
  end.

(** A pre-trained model that is not a file comes from the hub. *)
Definition warm_start_resolves (env : Env) (arg : Args) : Prop :=
  match arg_pretrained arg with
  | Some p => path_exists env p = false -> exists v, hub_load env p = inr v
  | None => True
  end.

(** [completes env arg m app]: every step of the branch of mode [m] that
    comes before its lifecycle call succeeds. *)
Definition completes (env : Env) (arg : Args) (m : Mode) (app : App)
    : Prop :=
  healthy env arg m app /\
  match m with
  | Train => warm_start_resolves env arg
  | Validate =>
      duration_resolves env arg app /\
      (arg_emb arg = true -> metric_resolves arg app)
  | Apply => duration_resolves env arg app
  end.

(** ** What the lifecycle calls receive *)

(** [has_kwarg k v ev]: if [ev] is a lifecycle call, it receives [k=v]. *)
Definition has_kwarg (k : string) (v : value) (ev : event) : Prop :=
  match ev with
  | EvCall _ _ _ kwargs => kwargs !! k = Some v
  | _ => True
  end.

(** [params] holds the device and every call made so far received it. *)
Definition device_kept (d : value) (s : State) : Prop :=
  params s !! "device" = Some d /\ Forall (has_kwarg "device" d) (trace s).

(** The subsets of the usage text (lines 164-167). *)
Definition default_subset (m : Mode) : string :=
  match m with
  | Train => "train"
  | Validate => "development"
  | Apply => "test"
  end.

Definition subset_of (arg : Args) (m : Mode) : value :=
  VStr (match arg_subset arg with
        | Some s => s
        | None => default_subset m
        end).

Definition subset_ok (arg : Args) (ev : event) : Prop :=
  match ev with
  | EvCall m _ _ kwargs => kwargs !! "subset" = Some (subset_of arg m)
  | _ => True
  end.

(** The trace starts with the probe of device [d], the only probe. *)
Definition probe_first (d : value) (t : list event) : Prop :=
  exists rest, t = EvProbe d :: rest /\ Forall (fun ev => is_probe ev = false) rest.

(** What [validate] receives as [n_jobs] (lines 331-334). *)
Definition n_jobs_ok (env : Env) (arg : Args) (ev : event) : Prop :=
  match ev with
  | EvCall Validate _ _ kwargs =>
      match arg_parallel arg with
      | Some s =>
          exists n, py_int env s = Some n /\ kwargs !! "n_jobs" = Some (VInt n)
      | None => kwargs !! "n_jobs" = Some (VInt (cpu_count env))
      end
  | _ => True
  end.

(** What [train] receives as [warm_start] (lines 291-312). *)
Definition warm_start_ok (env : Env) (arg : Args) (ev : event) : Prop :=
  match ev with
  | EvCall Train _ _ kwargs =>
      match arg_pretrained arg with
      | Some p =>
          if path_exists env p
          then kwargs !! "warm_start" = Some (VPath p)
          else exists v,
                 hub_load env p = inr v /\ kwargs !! "warm_start" = Some v
      | None =>
          exists n,
            py_int env (arg_from arg) = Some n /\
            kwargs !! "warm_start" = Some (VInt n)
      end
  | _ => True
  end.

(** What [validate] and [apply] receive as [duration] (lines 340-349 and
    373-382). *)
Definition duration_ok (env : Env) (arg : Args) (ev : event) : Prop :=
  match ev with
  | EvCall Train _ _ _ => True
  | EvCall _ app _ kwargs =>
      match arg_duration arg with
      | Some d =>
          exists x,
            py_float env d = Some x /\ kwargs !! "duration" = Some (VFloat x)
      | None =>
          getattr (task_duration (task_ app)) <> VNone /\
          kwargs !! "duration" = Some (getattr (task_duration (task_ app)))
      end
  | _ => True
  end.

(** In validate mode for the embedding task, a metric can be found. *)
Definition metric_found (arg : Args) (m : Mode) (app : App) : Prop :=
  m = Validate -> arg_emb arg = true -> metric_resolves arg app.

Definition is_validate (m : Mode) : bool :=
  match m with Validate => true | _ => false end.

(** What the lifecycle call of a run of mode [m] receives as [metric]
    (lines 353-362): something for the embedding task in validate mode,
    and nothing otherwise. *)
Definition metric_ok (arg : Args) (m : Mode) (ev : event) : Prop :=
  match ev with
  | EvCall _ app _ kwargs =>
      if arg_emb arg && is_validate m
      then match arg_metric arg with
           | Some name => kwargs !! "metric" = Some (VStr name)
           | None =>
               getattr (task_metric (task_ app)) <> VNone /\
               kwargs !! "metric" = Some (getattr (task_metric (task_ app)))
           end
      else kwargs !! "metric" = None
  | _ => True
  end.

Definition is_resolve (ev : event) : bool :=
  match ev with EvResolve _ => true | _ => false end.

(** ** Several modes at once *)

(** The modes whose flag is set, in the order of the three [if] statements
    of lines 284, 319 and 366. *)
Definition wanted (arg : Args) : list Mode :=
  (if arg_train arg then [Train] else []) ++
  (if arg_validate arg then [Validate] else []) ++
  (if arg_apply arg then [Apply] else []).

(** Every key of [a] is a key of [b]. *)
Definition keys_grow (a b : gmap string value) : Prop := dom a ⊆ dom b.

(** [params] has the keys of every dictionary passed so far, and these
    dictionaries have more and more keys. *)
Definition reused (s : State) : Prop :=
  Forall (fun kw => keys_grow kw (params s)) (passed (trace s)) /\
  StronglySorted keys_grow (passed (trace s)).

(** The calls made are the first of [l], and all of [l] when the run ends
    normally. *)
Definition in_sequence (l : list Mode) (r : Res unit) (s : State) : Prop :=
  called (trace s) `prefix_of` l /\ (r = Ok tt -> called (trace s) = l).

(** One branch either makes its call, or makes none and raises. *)
Definition stage (m : Mode) (s : State) (r : Res unit) (s' : State) : Prop :=
  called (trace s') = called (trace s) ++ [m] \/
  (called (trace s') = called (trace s) /\ r <> Ok tt).

(** ** The interpreter around [main]

    What the interpreter does when [main] ends.  The record holds what an
    exception object does not say of itself here: the stack lines of its
    report, and the code of a [SystemExit]. *)
Record Interpreter := {
  (* "Traceback (most recent call last):" and the stack lines of the report
     of an exception, after the report of what it was itself raised from *)
  stack_of : exn -> string;
  (* the status of a SystemExit: 0 without a code, the code when it is an
     integer, 1 otherwise *)
  exit_code_of : exn -> Z;
  (* what is printed for a SystemExit: its code when that is neither None
     nor an integer *)
  exit_text_of : exn -> string
}.

(** The last line of the report of an exception: the name of its class
    and, when it is not empty, [str(e)]. *)
Definition headline (e : exn) : string :=
  match exn_text e with
  | EmptyString => kind_name (exn_kind_of e)
  | text => kind_name (exn_kind_of e) +:+ ": " +:+ text
  end.

Definition report (py : Interpreter) (e : exn) : string :=
  stack_of py e +:+ headline e +:+ newline.

(** What the interpreter writes on the error stream when [main] ends: for
    an exception other than [SystemExit], its report, after the report of
    the exception that was being handled when it was raised. *)
Definition stderr (py : Interpreter) (r : Res unit) : string :=
  match r with
  | Ok _ => EmptyString
  | Err e context =>
      match exn_kind_of e with
      | SystemExit => exit_text_of py e
      | _ =>
          match context with
          | Some e0 =>
              report py e0 +:+ newline +:+
              "During handling of the above exception, " +:+
              "another exception occurred:" +:+ newline +:+ newline +:+
              report py e
          | None => report py e
          end
      end
  end.

(** The exit status of the process: 0 when [main] returns, the code of a
    [SystemExit], and 1 for any other exception. *)
Definition exit_status (py : Interpreter) (r : Res unit) : Z :=
  match r with
  | Ok _ => 0
  | Err e _ =>
      match exn_kind_of e with
      | SystemExit => exit_code_of py e
      | _ => 1
      end
  end.

(** An interpreter that prints no stack lines and takes the text of a
    [SystemExit] for its code. *)
Definition terse : Interpreter :=
  {| stack_of := fun _ => "Traceback (most recent call last):" +:+ newline;
     exit_code_of := fun _ => 1;
     exit_text_of := exn_text |}.

(** ** One dictionary for all the calls *)

(** The method and the dictionary of each lifecycle call, in order. *)
Definition handed (t : list event) : list (Mode * gmap string value) :=
  (fun c => (c.1.1.1, c.2)) <$> calls t.

(** The keys that the branch of mode [m] assigns in [params]; [emb] is the
    flag of the embedding task. *)
Definition written (m : Mode) (emb : bool) : gset string :=
  match m with
  | Train => list_to_set ["subset"; "warm_start"; "epochs"]
  | Validate =>
      list_to_set
        (["subset"; "start"; "end"; "every"; "chronological"; "batch_size";
          "n_jobs"; "purity"; "diarization"; "precision"; "duration";
          "step"] ++ if emb then ["metric"] else [])
  | Apply => list_to_set ["subset"; "batch_size"; "duration"; "step"]
  end.

(** [threaded emb before cs]: the dictionary of each call of [cs] is the
    dictionary of the call before it ([before] for the first call),
    updated with values for the keys that the branch of the call assigns. *)
Fixpoint threaded (emb : bool) (before : gmap string value)
    (cs : list (Mode * gmap string value)) : Prop :=
  match cs with
  | [] => True
  | (m, kw) :: rest =>
      (exists own, dom own = written m emb /\ kw = own ∪ before) /\
      threaded emb kw rest
  end.

(** The dictionary of the last call of [cs], [before] when there is none. *)
Fixpoint latest (before : gmap string value)
    (cs : list (Mode * gmap string value)) : gmap string value :=
  match cs with
  | [] => before
  | (_, kw) :: rest => latest kw rest
  end.

(** [params] as line 275 leaves it. *)
Definition with_device (arg : Args) : gmap string value :=
  <["device" := VDevice (if arg_gpu arg then cuda else cpu)]> ∅.

(** The calls so far were handed one dictionary, and [params] is that
    dictionary. *)
Definition shared (arg : Args) (s : State) : Prop :=
  threaded (arg_emb arg) (with_device arg) (handed (trace s)) /\
  params s = latest (with_device arg) (handed (trace s)).

(** After a branch: one dictionary still, and, unless the branch raised,
    [params] is the dictionary of its call. *)
Definition handed_on (arg : Args) (r : Res unit) (s : State) : Prop :=
  match r with
  | Ok _ => shared arg s
  | Err _ _ =>
      threaded (arg_emb arg) (with_device arg) (handed (trace s))
  end.

(** ** More of what a run does *)

(** The receiver of a lifecycle call and the arguments of a construction:
    the class is the one the task flag selects, the constructor is the one
    of the mode, the directory is the resolved positional argument of the
    mode, and the protocol is the one of the command line. *)
Definition receiver_ok (env : Env) (arg : Args) (ev : event) : Prop :=
  match ev with
  | EvConstruct c k dir training =>
      select_application arg = Some c /\
      exists m,
        k = ctor_of m /\ training = training_of m /\
        exists p, positional m arg = Some p /\ resolve_strict env p = Some dir
  | EvCall m app protocol _ =>
      protocol = of_option (arg_protocol arg) /\
      select_application arg = Some (app_class app) /\
      app_ctor app = ctor_of m /\
      app_training app = training_of m /\
      (exists p, positional m arg = Some p /\
                 resolve_strict env p = Some (app_dir app)) /\
      build env (app_class app) (ctor_of m) (app_dir app) (training_of m)
      = inr (task_ app)
  | _ => True
  end.

(** No application is constructed and no lifecycle method is called. *)
Definition idle (ev : event) : Prop :=
  is_construct ev = false /\ is_call ev = false.

(** The keys of the dictionary that the call of a run of mode [m] receives;
    [emb] is the flag of the embedding task. *)
Definition keys_of (m : Mode) (emb : bool) : gset string :=
  match m with
  | Train => list_to_set ["device"; "subset"; "warm_start"; "epochs"]
  | Validate =>
      list_to_set
        (["device"; "subset"; "start"; "end"; "every"; "chronological";
          "batch_size"; "n_jobs"; "purity"; "diarization"; "precision";
          "duration"; "step"] ++ if emb then ["metric"] else [])
  | Apply => list_to_set ["device"; "subset"; "batch_size"; "duration"; "step"]
  end.

Definition keys_ok (arg : Args) (m : Mode) (ev : event) : Prop :=
  match ev with
  | EvCall _ _ _ kwargs => dom kwargs = keys_of m (arg_emb arg)
  | _ => True
  end.

(** [key] is passed with the integer, or the float, that the numeral [s]
    stands for. *)
Definition int_kwarg (env : Env) (kwargs : gmap string value)
    (key s : string) : Prop :=
  exists n, py_int env s = Some n /\ kwargs !! key = Some (VInt n).

Definition float_kwarg (env : Env) (kwargs : gmap string value)
    (key s : string) : Prop :=
  exists x, py_float env s = Some x /\ kwargs !! key = Some (VFloat x).

(** The options that each lifecycle call receives converted (lines 315,
    325-329, 336-338, 351, 371 and 384). *)
Definition options_ok (env : Env) (arg : Args) (ev : event) : Prop :=
  match ev with
  | EvCall Train _ _ kwargs => int_kwarg env kwargs "epochs" (arg_to arg)
  | EvCall Validate _ _ kwargs =>
      int_kwarg env kwargs "start" (arg_from arg) /\
      int_kwarg env kwargs "end" (arg_to arg) /\
      int_kwarg env kwargs "every" (arg_every arg) /\
      kwargs !! "chronological" = Some (VBool (negb (arg_evergreen arg))) /\
      int_kwarg env kwargs "batch_size" (arg_batch arg) /\
      float_kwarg env kwargs "purity" (arg_purity arg) /\
      kwargs !! "diarization" = Some (VBool (arg_diarization arg)) /\
      float_kwarg env kwargs "precision" (arg_precision arg) /\
      float_kwarg env kwargs "step" (arg_step arg)
  | EvCall Apply _ _ kwargs =>
      int_kwarg env kwargs "batch_size" (arg_batch arg) /\
      float_kwarg env kwargs "step" (arg_step arg)
  | _ => True
  end.

(** In a run of mode [m], the file system is asked about [--pretrained]
    and the hub is contacted in train mode only, the hub only for a name
    that is no path; the cores are counted in validate mode only, and only
    without [--parallel]. *)
Definition sparing (env : Env) (arg : Args) (m : Mode) (ev : event) : Prop :=
  match ev with
  | EvExists p => m = Train /\ arg_pretrained arg = Some p
  | EvHubLoad name =>
      m = Train /\ arg_pretrained arg = Some name /\
      path_exists env name = false
  | EvCpuCount => m = Validate /\ arg_parallel arg = None
  | _ => True
  end.

(** What leaves [main] in a run of mode [m], given the calls it made. *)
Definition outcome_ok (env : Env) (m : Mode) (r : Res unit)
    (cs : list (Mode * App * value * gmap string value)) : Prop :=
  match cs with
  | [] => exists e context, r = Err e context
  | [(m', app, protocol, kwargs)] =>
      m' = m /\
      r = match lifecycle env m app protocol kwargs with
          | Some e => Err e None
          | None => Ok tt
          end
  | _ => False
  end.

(** The sample environment with another answer of the hub. *)
Definition hub_world (answer : exn + value) : Env :=
  {| py_int := Sample.int;
     py_float := Sample.float;
     to_device := fun _ => None;
     resolve_strict :=
       fun p => if String.eqb p "/exp" then Some "/exp" else None;
     path_exists := fun p => String.eqb p "/exp/weights/0050.pt";
     hub_load := fun _ => answer;
     cpu_count := 8;
     build := fun _ _ _ _ => inr Sample.configured;
     lifecycle := fun _ _ _ _ => None |}.

(** The sample environment with a [train] that raises. *)
Definition failing_world (e : exn) : Env :=
  {| py_int := Sample.int;
     py_float := Sample.float;
     to_device := fun _ => None;
     resolve_strict :=
       fun p => if String.eqb p "/exp" then Some "/exp" else None;
     path_exists := fun p => String.eqb p "/exp/weights/0050.pt";
     hub_load := fun _ => inl Sample.not_found;
     cpu_count := 8;
     build := fun _ _ _ _ => inr Sample.configured;
     lifecycle := fun _ _ _ _ => Some e |}.

(** A dictionary no command line gives: a mode and no task. *)
Definition no_task : Args :=
  {| arg_sad := false; arg_scd := false; arg_ovl := false; arg_emb := false;
     arg_dom := false;
     arg_train := true; arg_validate := false; arg_apply := false;
     arg_root := Some "/exp"; arg_train_dir := None;
     arg_validate_dir := None;
     arg_protocol := Some Sample.protocol;
     arg_subset := None; arg_gpu := false;
     arg_from := Default.from; arg_to := Default.to;
     arg_batch := Default.batch; arg_step := Default.step;
     arg_duration := None; arg_metric := None; arg_pretrained := None;
     arg_every := Default.every; arg_evergreen := false;
     arg_parallel := None; arg_purity := Default.purity;
     arg_diarization := false; arg_precision := Default.precision |}.

(** [pyannote-audio sad train --to=soon /exp <protocol>] *)
Definition train_until_soon : Args :=
  docopt SpeechActivityDetection Train "/exp" Sample.protocol
    [("--to", "soon")].

(** [pyannote-audio sad validate --evergreen /exp <protocol>] *)
Definition validate_evergreen : Args :=
  docopt SpeechActivityDetection Validate "/exp" Sample.protocol
    [("--evergreen", "")].

(** [KeyboardInterrupt()], whose text is empty. *)
Definition interrupt : exn := Exn KeyboardInterrupt EmptyString.
(** ** Rules of the monad *)

Section Rules.

Context {A B : Type}.
Implicit Types (s : State) (e : exn).

Lemma wp_ret (a : A) Q s : Q (Ok a) s -> wp (mret a) Q s.
Proof. done. Qed.

Lemma wp_raise e (Q : Res A -> State -> Prop) s :
  Q (Err e None) s -> wp (raise e) Q s.
Proof. done. Qed.

Lemma wp_raise_handling e0 e (Q : Res A -> State -> Prop) s :
  Q (Err e (Some e0)) s -> wp (raise_handling e0 e) Q s.
Proof. done. Qed.

Lemma wp_bind (m : M A) (k : A -> M B) Q s :
  wp m (fun r s' =>
          match r with
          | Ok a => wp (k a) Q s'
          | Err e c => Q (Err e c) s'
          end) s ->
  wp (m ≫= k) Q s.
Proof.
  unfold wp, mbind, M_bind, bind. by destruct (m s) as [[a|e c] s'].
Qed.

Lemma wp_wand (m : M A) (Q1 Q2 : Res A -> State -> Prop) s :
  wp m Q1 s -> (forall r s', Q1 r s' -> Q2 r s') -> wp m Q2 s.
Proof. unfold wp. auto. Qed.

End Rules.

Lemma wp_emit ev Q s :
  Q (Ok tt) {| params := params s; trace := trace s ++ [ev] |} ->
  wp (emit ev) Q s.
Proof. done. Qed.

Lemma wp_setitem k v Q s :
  Q (Ok tt) {| params := <[k := v]> (params s); trace := trace s |} ->
  wp (setitem k v) Q s.
Proof. done. Qed.

Lemma wp_getitem k v Q s :
  params s !! k = Some v -> Q (Ok v) s -> wp (getitem k) Q s.
Proof. unfold wp, getitem. by intros ->. Qed.

Lemma wp_unpack Q s : Q (Ok (params s)) s -> wp unpack Q s.
Proof. done. Qed.

(** No statement of the module imports [sys]. *)
Lemma sys_not_imported : bool_decide ("sys" ∈ module_names) = false.
Proof. by vm_compute. Qed.

Lemma is_None_true v : is_None v = true <-> v = VNone.
Proof. by destruct v. Qed.

Lemma is_None_false v : is_None v = false <-> v <> VNone.
Proof. by destruct v. Qed.

(** One step of symbolic execution of the program text.  Cases that the
    hypotheses exclude are closed on the way. *)
Ltac wp_step :=
  lazymatch goal with
  | |- wp (mbind _ _) _ _ => apply wp_bind
  | |- wp (mret _) _ _ => apply wp_ret
  | |- wp (raise _) _ _ => apply wp_raise
  | |- wp (raise_handling _ _) _ _ => apply wp_raise_handling
  | |- wp (emit _) _ _ => apply wp_emit
  | |- wp (setitem _ _) _ _ => apply wp_setitem
  | |- wp unpack _ _ => apply wp_unpack
  | |- wp (when ?b _) _ _ => unfold when
  | |- wp (int_ _ _) _ _ => unfold int_
  | |- wp (int_of_value _ _) _ _ => unfold int_of_value
  | |- wp (float_ _ _) _ _ => unfold float_
  | |- wp (probe _ _) _ _ => unfold probe
  | |- wp (resolve _ _) _ _ => unfold resolve
  | |- wp (instantiate _ _ _ _ _) _ _ => unfold instantiate
  | |- wp (exists_ _ _) _ _ => unfold exists_
  | |- wp (sys_exit _ _) _ _ => unfold sys_exit; rewrite sys_not_imported
  | |- wp (load_from_hub _ _ _) _ _ => unfold load_from_hub
  | |- wp (call _ _ _ _) _ _ => unfold call
  | |- wp (duration_of _ _ _) _ _ => unfold duration_of
  | |- wp (metric_of _ _) _ _ => unfold metric_of
  | |- wp (match ?x with _ => _ end) _ _ =>
      first [ match goal with H : x = _ |- _ => rewrite H end
            | destruct x eqn:?; try congruence ]
  end;
  cbv beta iota zeta; cbn [params trace task_].

Ltac wp_run := repeat wp_step.

(** Splitting a property of all events along the trace. *)
Ltac along_trace :=
  cbn [params trace];
  repeat (apply Forall_app; split); try assumption;
  repeat constructor.

(** Looking a key up in [params] after the assignments of a branch. *)
Ltac by_lookup :=
  rewrite ?lookup_insert_ne by done; by rewrite ?lookup_insert_eq.

(** Using what the path taken says about the tests of the code. *)
Ltac on_path :=
  repeat match goal with
    | H : ?x = _ |- context [match ?x with _ => _ end] => rewrite H
    end.

Lemma calls_app t1 t2 : calls (t1 ++ t2) = calls t1 ++ calls t2.
Proof. apply omap_app. Qed.

Lemma calls_elem_of t c :
  c ∈ calls t -> EvCall c.1.1.1 c.1.1.2 c.1.2 c.2 ∈ t.
Proof.
  unfold calls. rewrite list_elem_of_omap.
  intros (ev & Hin & Hev). by destruct ev; simplify_eq.
Qed.

Lemma Forall_calls (P : event -> Prop) t m app p kw :
  Forall P t -> calls t = [(m, app, p, kw)] -> P (EvCall m app p kw).
Proof.
  intros HP Hc. rewrite Forall_forall in HP. apply HP.
  apply (calls_elem_of t (m, app, p, kw)). rewrite Hc. by left.
Qed.

(** ** The shape of [main] *)

(** The three guarded branches of [main] keep what each branch keeps. *)
Lemma wp_branches env arg cls p sub (I : State -> Prop) s :
  (forall s, I s -> wp (train_branch env arg cls p sub) (fun _ s' => I s') s) ->
  (forall s, I s ->
             wp (validate_branch env arg cls p sub) (fun _ s' => I s') s) ->
  (forall s, I s -> wp (apply_branch env arg cls p sub) (fun _ s' => I s') s) ->
  I s ->
  wp (when (arg_train arg) (train_branch env arg cls p sub);;
      when (arg_validate arg) (validate_branch env arg cls p sub);;
      when (arg_apply arg) (apply_branch env arg cls p sub))
     (fun _ s' => I s') s.
Proof.
  intros Ht Hv Ha Hs.
  assert (Hw : forall b (m : M unit) s0,
             (forall s, I s -> wp m (fun _ s' => I s') s) -> I s0 ->
             wp (when b m) (fun _ s' => I s') s0).
  { intros [] m s0 Hm H0; [by apply Hm | by apply wp_ret]. }
  apply wp_bind. eapply wp_wand; [by apply Hw, Hs|].
  intros [[]|e c] s1 H1; [|done].
  apply wp_bind. eapply wp_wand; [by apply Hw, H1|].
  intros [[]|e' c'] s2 H2; [|done].
  by apply Hw.
Qed.

(** The part of [main] before the branches: either the probe raises, or the
    branches start from [probed arg]. *)
Lemma wp_main env arg (Q : Res unit -> State -> Prop) :
  match to_device env (if arg_gpu arg then cuda else cpu) with
  | Some e => Q (Err e None) (probed arg)
  | None =>
      let cls := select_application arg in
      let p := of_option (arg_protocol arg) in
      let sub := arg_subset arg in
      wp (when (arg_train arg) (train_branch env arg cls p sub);;
          when (arg_validate arg) (validate_branch env arg cls p sub);;
          when (arg_apply arg) (apply_branch env arg cls p sub))
         Q (probed arg)
  end ->
  Q (result env arg) (final env arg).
Proof.
  intros H.
  change (wp (main env arg) Q initial).
  unfold main.
  apply wp_bind, wp_setitem; cbv beta iota; cbn [params trace].
  apply wp_bind.
  eapply wp_getitem; [cbn [params]; by rewrite lookup_insert_eq|].
  cbv beta iota.
  apply wp_bind. unfold probe.
  apply wp_bind, wp_emit; cbv beta iota; cbn [params trace].
  destruct (to_device env _); [by apply wp_raise|].
  by apply wp_ret.
Qed.

(** A property of the state that holds once the device is probed and that
    each branch keeps, holds when [main] ends, normally or not. *)
Lemma main_keeps env arg (I : State -> Prop) :
  let cls := select_application arg in
  let p := of_option (arg_protocol arg) in
  let sub := arg_subset arg in
  I (probed arg) ->
  (forall s, I s -> wp (train_branch env arg cls p sub) (fun _ s' => I s') s) ->
  (forall s, I s ->
             wp (validate_branch env arg cls p sub) (fun _ s' => I s') s) ->
  (forall s, I s -> wp (apply_branch env arg cls p sub) (fun _ s' => I s') s) ->
  I (final env arg).
Proof.
  intros cls p sub H0 Ht Hv Ha.
  apply (wp_main env arg (fun _ s => I s)).
  destruct (to_device env _); [done|].
  by apply wp_branches.
Qed.

(** With the commands of one usage pattern, [main] runs one branch. *)
Lemma main_only env arg m (Q : Res unit -> State -> Prop) :
  only m arg ->
  match to_device env (if arg_gpu arg then cuda else cpu) with
  | Some e => Q (Err e None) (probed arg)
  | None =>
      wp (branch m env arg (select_application arg)
            (of_option (arg_protocol arg)) (arg_subset arg))
         Q (probed arg)
  end ->
  Q (result env arg) (final env arg).
Proof.
  intros (Ht & Hv & Ha) H.
  apply wp_main. destruct (to_device env _); [done|].
  cbv zeta. rewrite Ht, Hv, Ha.
  destruct m; cbn [branch] in H; unfold when.
  - apply wp_bind. eapply wp_wand; [exact H|].
    intros [[]|e c] s' HQ; [|done]. by apply wp_bind, wp_ret, wp_ret.
  - apply wp_bind, wp_ret, wp_bind. eapply wp_wand; [exact H|].
    intros [[]|e c] s' HQ; [|done]. by apply wp_ret.
  - by apply wp_bind, wp_ret, wp_bind, wp_ret.
Qed.

(** ** Runs that reach their lifecycle call *)

(** The calls of a trace that was built event by event. *)
Ltac calls_of_trace :=
  unfold probed; cbn [trace]; rewrite ?calls_app; reflexivity.

(** Naming the parts of [completes]. *)
Ltac unpack_completes H app :=
  let Hdev := fresh "Hdev" in
  let Hrest := fresh "Hrest" in
  let Hnum := fresh "Hnum" in
  destruct H as [[(Hdev & (?root & ?Hpos & ?Hres) & ?Hcls & ?Hctor & ?Htr
                   & ?Hbuild) Hnum] Hrest];
  destruct app as [?c ?k ?dir ?tr ?t];
  cbn [app_class app_ctor app_dir app_training task_ positional ctor_of
       training_of numbers_parse] in *;
  subst.

(** Turning what is known of the lookups into equations on what the code
    tests. *)
Ltac resolve_lookups :=
  repeat match goal with
    | H : is_Some _ |- _ => destruct H as [? H]
    | H : _ /\ _ |- _ => destruct H
    | H : duration_resolves _ ?arg _ |- _ =>
        unfold duration_resolves in H;
        destruct (arg_duration arg) eqn:?;
        cbn [task_ task_duration] in H
    | H : metric_resolves ?arg _ |- _ =>
        unfold metric_resolves in H;
        destruct (arg_metric arg) eqn:?;
        cbn [task_ task_metric] in H
    | H : getattr _ <> VNone |- _ => apply is_None_false in H
    | H : getattr _ = VNone |- _ => apply is_None_true in H
    end.

Lemma train_reaches_call env arg app :
  only Train arg -> completes env arg Train app ->
  exists kw,
    calls (events env arg)
    = [(Train, app, of_option (arg_protocol arg), kw)].
Proof.
  intros Ho Hc.
  apply (main_only env arg Train
           (fun _ s => exists kw, calls (trace s) = [(Train, _, _, kw)]) Ho).
  unpack_completes Hc app. rewrite Hdev. cbn [branch].
  resolve_lookups. unfold warm_start_resolves in Hrest.
  unfold train_branch.
  destruct (arg_pretrained arg) as [name|] eqn:Hpre.
  - destruct (path_exists env name) eqn:Hex.
    + wp_run; eexists; calls_of_trace.
    + destruct (Hrest eq_refl) as [v Hv].
      wp_run; eexists; calls_of_trace.
  - wp_run; eexists; calls_of_trace.
Qed.

Lemma validate_reaches_call env arg app :
  only Validate arg -> completes env arg Validate app ->
  exists kw,
    calls (events env arg)
    = [(Validate, app, of_option (arg_protocol arg), kw)].
Proof.
  intros Ho Hc.
  apply (main_only env arg Validate
           (fun _ s => exists kw, calls (trace s) = [(Validate, _, _, kw)])
           Ho).
  unpack_completes Hc app. rewrite Hdev. cbn [branch].
  destruct Hrest as [Hdur Hmet].
  destruct Hnum as (Hfrom & Hto & Hevery & Hbatch & Hpar & Hnum).
  assert (forall s, arg_parallel arg = Some s ->
                    exists n, py_int env s = Some n) as Hpar'
    by (intros s Hs; by destruct (Hpar s Hs) as [n ->]; eexists).
  clear Hpar.
  resolve_lookups; unfold validate_branch;
    (destruct (arg_parallel arg) as [jobs|] eqn:Hjobs;
     [destruct (Hpar' jobs eq_refl) as [n Hn]|]);
    (destruct (arg_emb arg) eqn:Hemb;
     [specialize (Hmet eq_refl); resolve_lookups|]);
    wp_run; eexists; calls_of_trace.
Qed.

Lemma apply_reaches_call env arg app :
  only Apply arg -> completes env arg Apply app ->
  exists kw,
    calls (events env arg)
    = [(Apply, app, of_option (arg_protocol arg), kw)].
Proof.
  intros Ho Hc.
  apply (main_only env arg Apply
           (fun _ s => exists kw, calls (trace s) = [(Apply, _, _, kw)]) Ho).
  unpack_completes Hc app. rewrite Hdev. cbn [branch].
  resolve_lookups; unfold apply_branch;
    wp_run; eexists; calls_of_trace.
Qed.

(** Whatever the mode, a run in which every step succeeds makes exactly one
    lifecycle call: the method of the mode, on the application object of
    the mode, with the protocol of the command line. *)
Lemma reaches_call env arg m app :
  only m arg -> completes env arg m app ->
  exists kw,
    calls (events env arg) = [(m, app, of_option (arg_protocol arg), kw)].
Proof.
  destruct m;
    eauto using train_reaches_call, validate_reaches_call, apply_reaches_call.
Qed.

(** ** The device (lines 275-279) *)

Section DeviceInvariant.

Context (env : Env) (arg : Args) (d : value).

Ltac kept :=
  match goal with
  | H : device_kept _ _ |- device_kept _ _ =>
      destruct H as [Hp Ht]; split;
      [ cbn [params]; by rewrite ?lookup_insert_ne by done
      | along_trace; cbn [has_kwarg];
        by rewrite ?lookup_insert_ne by done ]
  end.

Lemma train_keeps_device cls p sub s :
  device_kept d s ->
  wp (train_branch env arg cls p sub) (fun _ s' => device_kept d s') s.
Proof. intros H. unfold train_branch. wp_run; kept. Qed.

Lemma validate_keeps_device cls p sub s :
  device_kept d s ->
  wp (validate_branch env arg cls p sub) (fun _ s' => device_kept d s') s.
Proof. intros H. unfold validate_branch. wp_run; kept. Qed.

Lemma apply_keeps_device cls p sub s :
  device_kept d s ->
  wp (apply_branch env arg cls p sub) (fun _ s' => device_kept d s') s.
Proof. intros H. unfold apply_branch. wp_run; kept. Qed.

End DeviceInvariant.

Lemma device_in_every_call env arg :
  Forall (has_kwarg "device" (device_of arg)) (events env arg).
Proof.
  apply (main_keeps env arg (device_kept (device_of arg)));
    auto using train_keeps_device, validate_keeps_device, apply_keeps_device.
  split; cbn [params trace probed];
    [ by rewrite lookup_insert_eq | by repeat constructor ].
Qed.

(** C10: the device selected at lines 275-276 is stored in [params] and is
    a keyword argument of every lifecycle call of every run, whatever the
    mode; and in each mode, a run in which every step succeeds makes its
    call ([train], [validate] or [apply]) with that [device]. *)
Theorem device_reaches_every_call env arg :
  let d := VDevice (if arg_gpu arg then cuda else cpu) in
  Forall (has_kwarg "device" d) (events env arg) /\
  forall m app,
    only m arg -> completes env arg m app ->
    exists kw,
      calls (events env arg) = [(m, app, of_option (arg_protocol arg), kw)] /\
      kw !! "device" = Some d.
Proof.
  intros d. pose proof (device_in_every_call env arg) as Hall.
  split; [done|]. intros m app Ho Hc.
  destruct (reaches_call env arg m app Ho Hc) as [kw Hkw].
  exists kw. split; [done|].
  apply (Forall_calls _ _ _ _ _ _ Hall Hkw).
Qed.

(** ** The subset (lines 288, 324 and 370) *)

Section SubsetInvariant.

Context (env : Env) (arg : Args).

Ltac kept :=
  along_trace; cbn [subset_ok];
  rewrite ?lookup_insert_ne by done; rewrite lookup_insert_eq;
  unfold subset_of; by destruct (arg_subset arg).

Lemma train_keeps_subset cls p s :
  Forall (subset_ok arg) (trace s) ->
  wp (train_branch env arg cls p (arg_subset arg))
     (fun _ s' => Forall (subset_ok arg) (trace s')) s.
Proof. intros H. unfold train_branch. wp_run; kept. Qed.

Lemma validate_keeps_subset cls p s :
  Forall (subset_ok arg) (trace s) ->
  wp (validate_branch env arg cls p (arg_subset arg))
     (fun _ s' => Forall (subset_ok arg) (trace s')) s.
Proof. intros H. unfold validate_branch. wp_run; kept. Qed.

Lemma apply_keeps_subset cls p s :
  Forall (subset_ok arg) (trace s) ->
  wp (apply_branch env arg cls p (arg_subset arg))
     (fun _ s' => Forall (subset_ok arg) (trace s')) s.
Proof. intros H. unfold apply_branch. wp_run; kept. Qed.

End SubsetInvariant.

Lemma subset_in_every_call env arg :
  Forall (subset_ok arg) (events env arg).
Proof.
  apply (main_keeps env arg (fun s => Forall (subset_ok arg) (trace s)));
    auto using train_keeps_subset, validate_keeps_subset, apply_keeps_subset.
  by repeat constructor.
Qed.

(** C3: every lifecycle call of every run receives [subset]: the value of
    [--subset] when the option is given, and otherwise ["train"] for
    [train], ["development"] for [validate] and ["test"] for [apply]; and in
    each mode, a run in which every step succeeds makes its call with that
    [subset]. *)
Theorem subset_defaults env arg :
  Forall (subset_ok arg) (events env arg) /\
  forall m app,
    only m arg -> completes env arg m app ->
    exists kw,
      calls (events env arg) = [(m, app, of_option (arg_protocol arg), kw)] /\
      kw !! "subset"
      = Some (VStr match arg_subset arg, m with
                   | Some given, _ => given
                   | None, Train => "train"
                   | None, Validate => "development"
                   | None, Apply => "test"
                   end).
Proof.
  pose proof (subset_in_every_call env arg) as Hall.
  split; [done|]. intros m app Ho Hc.
  destruct (reaches_call env arg m app Ho Hc) as [kw Hkw].
  exists kw. split; [done|].
  pose proof (Forall_calls _ _ _ _ _ _ Hall Hkw) as H.
  cbn [subset_ok] in H. rewrite H. unfold subset_of.
  by destruct (arg_subset arg), m.
Qed.

(** ** The probe (line 279) *)

Section ProbeInvariant.

Context (env : Env) (arg : Args) (d : value).

Ltac kept :=
  match goal with
  | H : probe_first _ _ |- probe_first _ _ =>
      destruct H as (rest & Ht & Hrest); cbn [trace]; rewrite Ht;
      eexists; split; [cbn [app]; reflexivity | along_trace]
  end.

Lemma train_keeps_probe cls p sub s :
  probe_first d (trace s) ->
  wp (train_branch env arg cls p sub) (fun _ s' => probe_first d (trace s')) s.
Proof. intros H. unfold train_branch. wp_run; kept. Qed.

Lemma validate_keeps_probe cls p sub s :
  probe_first d (trace s) ->
  wp (validate_branch env arg cls p sub)
     (fun _ s' => probe_first d (trace s')) s.
Proof. intros H. unfold validate_branch. wp_run; kept. Qed.

Lemma apply_keeps_probe cls p sub s :
  probe_first d (trace s) ->
  wp (apply_branch env arg cls p sub) (fun _ s' => probe_first d (trace s')) s.
Proof. intros H. unfold apply_branch. wp_run; kept. Qed.

End ProbeInvariant.

(** C7: in every run the first call to the outside is the probe of line
    279, on the CUDA device when [--gpu] is set and on the CPU device
    otherwise; every other event (path resolution, construction of the
    application, lifecycle call) comes after it and none is a second probe;
    and when the probe raises, the run ends there with that exception. *)
Theorem device_probed_first env arg :
  let d := if arg_gpu arg then cuda else cpu in
  (exists rest,
     events env arg = EvProbe (VDevice d) :: rest /\
     Forall (fun ev => is_probe ev = false) rest) /\
  match to_device env d with
  | Some e =>
      result env arg = Err e None /\ events env arg = [EvProbe (VDevice d)]
  | None => True
  end.
Proof.
  intros d. split.
  - apply (main_keeps env arg (fun s => probe_first (VDevice d) (trace s)));
      auto using train_keeps_probe, validate_keeps_probe, apply_keeps_probe.
    exists []. by split.
  - destruct (to_device env d) as [e|] eqn:He; [|done].
    apply (wp_main env arg
             (fun r s => r = Err e None /\ trace s = [EvProbe (VDevice d)])).
    subst d. by rewrite He.
Qed.

(** ** The number of jobs (lines 331-334) *)

Section JobsInvariant.

Context (env : Env) (arg : Args).

Ltac kept :=
  along_trace; cbn [n_jobs_ok]; on_path;
  try (eexists; split; [eassumption|]); by_lookup.

Lemma train_keeps_n_jobs cls p sub s :
  Forall (n_jobs_ok env arg) (trace s) ->
  wp (train_branch env arg cls p sub)
     (fun _ s' => Forall (n_jobs_ok env arg) (trace s')) s.
Proof. intros H. unfold train_branch. wp_run; kept. Qed.

Lemma validate_keeps_n_jobs cls p sub s :
  Forall (n_jobs_ok env arg) (trace s) ->
  wp (validate_branch env arg cls p sub)
     (fun _ s' => Forall (n_jobs_ok env arg) (trace s')) s.
Proof. intros H. unfold validate_branch. wp_run; kept. Qed.

Lemma apply_keeps_n_jobs cls p sub s :
  Forall (n_jobs_ok env arg) (trace s) ->
  wp (apply_branch env arg cls p sub)
     (fun _ s' => Forall (n_jobs_ok env arg) (trace s')) s.
Proof. intros H. unfold apply_branch. wp_run; kept. Qed.

End JobsInvariant.

Lemma n_jobs_in_every_call env arg :
  Forall (n_jobs_ok env arg) (events env arg).
Proof.
  apply (main_keeps env arg (fun s => Forall (n_jobs_ok env arg) (trace s)));
    auto using train_keeps_n_jobs, validate_keeps_n_jobs, apply_keeps_n_jobs.
  by repeat constructor.
Qed.

(** C9: every call of [validate] receives as [n_jobs] the integer value of
    [--parallel] when the option is given, and the number of CPU cores
    ([multiprocessing.cpu_count()]) when it is not; and a run of validate
    mode in which every step succeeds calls [validate] with that
    [n_jobs]. *)
Theorem n_jobs_of_validate env arg :
  Forall (n_jobs_ok env arg) (events env arg) /\
  forall app,
    only Validate arg -> completes env arg Validate app ->
    exists kw,
      calls (events env arg)
      = [(Validate, app, of_option (arg_protocol arg), kw)] /\
      match arg_parallel arg with
      | Some s => exists n, py_int env s = Some n /\ kw !! "n_jobs" = Some (VInt n)
      | None => kw !! "n_jobs" = Some (VInt (cpu_count env))
      end.
Proof.
  pose proof (n_jobs_in_every_call env arg) as Hall.
  split; [done|]. intros app Ho Hc.
  destruct (reaches_call env arg Validate app Ho Hc) as [kw Hkw].
  exists kw. split; [done|].
  apply (Forall_calls _ _ _ _ _ _ Hall Hkw).
Qed.

(** ** The warm start (lines 291-312) *)

Section WarmStartInvariant.

Context (env : Env) (arg : Args).

Ltac kept :=
  along_trace; cbn [warm_start_ok]; on_path;
  try (eexists; split; [eassumption|]); by_lookup.

Lemma train_keeps_warm_start cls p sub s :
  Forall (warm_start_ok env arg) (trace s) ->
  wp (train_branch env arg cls p sub)
     (fun _ s' => Forall (warm_start_ok env arg) (trace s')) s.
Proof. intros H. unfold train_branch. wp_run; kept. Qed.

Lemma validate_keeps_warm_start cls p sub s :
  Forall (warm_start_ok env arg) (trace s) ->
  wp (validate_branch env arg cls p sub)
     (fun _ s' => Forall (warm_start_ok env arg) (trace s')) s.
Proof. intros H. unfold validate_branch. wp_run; kept. Qed.

Lemma apply_keeps_warm_start cls p sub s :
  Forall (warm_start_ok env arg) (trace s) ->
  wp (apply_branch env arg cls p sub)
     (fun _ s' => Forall (warm_start_ok env arg) (trace s')) s.
Proof. intros H. unfold apply_branch. wp_run; kept. Qed.

End WarmStartInvariant.

Lemma warm_start_in_every_call env arg :
  Forall (warm_start_ok env arg) (events env arg).
Proof.
  apply (main_keeps env arg
           (fun s => Forall (warm_start_ok env arg) (trace s)));
    auto using train_keeps_warm_start, validate_keeps_warm_start,
               apply_keeps_warm_start.
  by repeat constructor.
Qed.

(** C4: a run of train mode in which every step succeeds calls [train]
    with a [warm_start] that is, when [--pretrained] names an existing
    path, that path ([Path(pretrained)]) whatever the integer [--from]
    stands for, and when [--pretrained] is absent, the integer value of
    [--from]; an absent [--from] is the numeral ["0"].  In any run, a call of
    [train] receives no other [warm_start] than these or the answer of the
    hub. *)
Theorem warm_start_of_train env arg :
  (forall app,
     only Train arg -> completes env arg Train app ->
     exists kw,
       calls (events env arg)
       = [(Train, app, of_option (arg_protocol arg), kw)] /\
       match arg_pretrained arg with
       | Some p =>
           path_exists env p = true -> kw !! "warm_start" = Some (VPath p)
       | None =>
           exists n,
             py_int env (arg_from arg) = Some n /\
             kw !! "warm_start" = Some (VInt n)
       end) /\
  Forall (warm_start_ok env arg) (events env arg) /\
  (forall c dir protocol opts,
     given opts "--from" = None ->
     arg_from (docopt c Train dir protocol opts) = "0").
Proof.
  pose proof (warm_start_in_every_call env arg) as Hall.
  split; [|split; [done|]].
  - intros app Ho Hc.
    destruct (reaches_call env arg Train app Ho Hc) as [kw Hkw].
    exists kw. split; [done|].
    pose proof (Forall_calls _ _ _ _ _ _ Hall Hkw) as H.
    cbn [warm_start_ok] in H.
    destruct (arg_pretrained arg) as [p|]; [|done].
    intros Hex. by rewrite Hex in H.
  - intros c dir protocol opts Hfrom. cbn [docopt arg_from]. by rewrite Hfrom.
Qed.

(** ** The duration (lines 340-349 and 373-382) *)

Section DurationInvariant.

Context (env : Env) (arg : Args).

Ltac kept :=
  along_trace; cbn [duration_ok task_]; on_path;
  first [ eexists; split; [eassumption|]; by_lookup
        | split; [by apply is_None_false | by_lookup]
        | done ].

Lemma train_keeps_duration cls p sub s :
  Forall (duration_ok env arg) (trace s) ->
  wp (train_branch env arg cls p sub)
     (fun _ s' => Forall (duration_ok env arg) (trace s')) s.
Proof. intros H. unfold train_branch. wp_run; kept. Qed.

Lemma validate_keeps_duration cls p sub s :
  Forall (duration_ok env arg) (trace s) ->
  wp (validate_branch env arg cls p sub)
     (fun _ s' => Forall (duration_ok env arg) (trace s')) s.
Proof. intros H. unfold validate_branch. wp_run; kept. Qed.

Lemma apply_keeps_duration cls p sub s :
  Forall (duration_ok env arg) (trace s) ->
  wp (apply_branch env arg cls p sub)
     (fun _ s' => Forall (duration_ok env arg) (trace s')) s.
Proof. intros H. unfold apply_branch. wp_run; kept. Qed.

End DurationInvariant.

Lemma duration_in_every_call env arg :
  Forall (duration_ok env arg) (events env arg).
Proof.
  apply (main_keeps env arg (fun s => Forall (duration_ok env arg) (trace s)));
    auto using train_keeps_duration, validate_keeps_duration,
               apply_keeps_duration.
  by repeat constructor.
Qed.

Lemma duration_msg_mentions_option : mentions "--duration" duration_msg.
Proof.
  exists "Task has no 'duration' defined. Use '", "' option to provide one.".
  reflexivity.
Qed.

(** Naming the parts of [healthy]. *)
Ltac unpack_healthy H app :=
  let Hdev := fresh "Hdev" in
  let Hnum := fresh "Hnum" in
  destruct H as [(Hdev & (?root & ?Hpos & ?Hres) & ?Hcls & ?Hctor & ?Htr
                  & ?Hbuild) Hnum];
  destruct app as [?c ?k ?dir ?tr ?t];
  cbn [app_class app_ctor app_dir app_training task_ positional ctor_of
       training_of numbers_parse] in *;
  subst.

(** Without [--parallel] nothing has to be converted; with it, the numeral
    is known to convert. *)
Ltac parallel_cases env arg Hpar :=
  let jobs := fresh "jobs" in
  let Hjobs := fresh "Hjobs" in
  destruct (arg_parallel arg) as [jobs|] eqn:Hjobs;
  [ destruct (Hpar jobs eq_refl) as [? ?] | ]; clear Hpar.

(** In validate and apply mode, when neither [--duration] nor the task
    gives a duration, the run raises the error of lines 344-346 and calls
    nothing. *)
Lemma no_duration_is_an_error env arg m app :
  m <> Train -> only m arg -> healthy env arg m app ->
  arg_duration arg = None ->
  getattr (task_duration (task_ app)) = VNone ->
  result env arg = Err (Exn ValueError duration_msg) None /\
  calls (events env arg) = [].
Proof.
  intros Hm Ho Hh Hopt Hattr.
  apply (main_only env arg m
           (fun r s => r = Err (Exn ValueError duration_msg) None /\
                       calls (trace s) = []) Ho).
  destruct m; [done| |];
    unpack_healthy Hh app; rewrite Hdev; cbn [task_ branch] in *.
  - destruct Hnum as (Hfrom & Hto & Hevery & Hbatch & Hpar & Hnum).
    resolve_lookups. unfold validate_branch.
    parallel_cases env arg Hpar; wp_run; (split; [done|calls_of_trace]).
  - resolve_lookups. unfold apply_branch.
    wp_run; (split; [done|calls_of_trace]).
Qed.

(** In validate and apply mode, a [--duration] that is no numeral ends the
    run before any call. *)
Lemma bad_duration_calls_nothing env arg m app d :
  m <> Train -> only m arg -> healthy env arg m app ->
  arg_duration arg = Some d -> py_float env d = None ->
  calls (events env arg) = [].
Proof.
  intros Hm Ho Hh Hopt Hd.
  apply (main_only env arg m (fun r s => calls (trace s) = []) Ho).
  destruct m; [done| |];
    unpack_healthy Hh app; rewrite Hdev; cbn [branch].
  - destruct Hnum as (Hfrom & Hto & Hevery & Hbatch & Hpar & Hnum).
    resolve_lookups. unfold validate_branch.
    parallel_cases env arg Hpar; wp_run; calls_of_trace.
  - resolve_lookups. unfold apply_branch. wp_run; calls_of_trace.
Qed.

(** C2: in validate mode and in apply mode alike, when nothing else fails:
    with [--duration] given (and a numeral), the lifecycle call receives
    its [float] as [duration]; without it, the call receives the [duration]
    attribute of [app.task_] when there is one; and when there is none
    either, the run ends with a [ValueError] whose message names
    [--duration], and [validate] or [apply] is not called. *)
Theorem duration_three_tiers env arg m app :
  m <> Train -> only m arg -> healthy env arg m app ->
  match arg_duration arg with
  | Some d =>
      match py_float env d with
      | Some x =>
          metric_found arg m app ->
          exists kw,
            calls (events env arg)
            = [(m, app, of_option (arg_protocol arg), kw)] /\
            kw !! "duration" = Some (VFloat x)
      | None => calls (events env arg) = []
      end
  | None =>
      let property := getattr (task_duration (task_ app)) in
      if is_None property
      then result env arg = Err (Exn ValueError duration_msg) None /\
           mentions "--duration" duration_msg /\
           calls (events env arg) = []
      else metric_found arg m app ->
           exists kw,
             calls (events env arg)
             = [(m, app, of_option (arg_protocol arg), kw)] /\
             kw !! "duration" = Some property
  end.
Proof.
  intros Hm Ho Hh.
  assert (duration_resolves env arg app -> metric_found arg m app ->
          exists kw,
            calls (events env arg)
            = [(m, app, of_option (arg_protocol arg), kw)] /\
            duration_ok env arg (EvCall m app (of_option (arg_protocol arg)) kw))
    as Hlive.
  { intros Hd Hf.
    assert (completes env arg m app) as Hc.
    { split; [done|]. destruct m; [done| |done]. split; [done|]. by apply Hf. }
    destruct (reaches_call env arg m app Ho Hc) as [kw Hkw].
    exists kw. split; [done|].
    apply (Forall_calls _ _ _ _ _ _ (duration_in_every_call env arg) Hkw). }
  unfold duration_resolves in Hlive.
  destruct (arg_duration arg) as [d|] eqn:Hopt.
  - destruct (py_float env d) as [x|] eqn:Hd.
    + intros Hf. destruct (Hlive ltac:(done) Hf) as (kw & Hkw & Hok).
      exists kw. split; [done|].
      destruct m; [done| |]; cbn [duration_ok] in Hok; rewrite Hopt in Hok;
        destruct Hok as (x' & Hx' & Hok); congruence.
    + by apply (bad_duration_calls_nothing env arg m app d).
  - cbv zeta.
    destruct (is_None (getattr (task_duration (task_ app)))) eqn:Hnone.
    + apply is_None_true in Hnone.
      destruct (no_duration_is_an_error env arg m app) as [Hr Hcalls];
        auto using duration_msg_mentions_option.
    + apply is_None_false in Hnone. intros Hf.
      destruct (Hlive Hnone Hf) as (kw & Hkw & Hok).
      exists kw. split; [done|].
      destruct m; [done| |]; cbn [duration_ok] in Hok; rewrite Hopt in Hok;
        by destruct Hok.
Qed.

(** ** The metric (lines 353-362) *)

Lemma metric_in_every_call env arg m :
  only m arg -> Forall (metric_ok arg m) (events env arg).
Proof.
  intros Ho.
  apply (main_only env arg m (fun _ s => Forall (metric_ok arg m) (trace s))
           Ho).
  destruct (to_device env _); [by repeat constructor|].
  destruct m; cbn [branch];
    [unfold train_branch | unfold validate_branch | unfold apply_branch];
    wp_run;
    unfold probed; along_trace; cbn [metric_ok is_validate task_];
    rewrite ?andb_false_r, ?andb_true_r; on_path;
    rewrite ?lookup_insert_ne by done;
    first [ by rewrite lookup_insert_eq
          | split; [by apply is_None_false | by rewrite lookup_insert_eq]
          | by rewrite lookup_empty ].
Qed.

Lemma metric_msg_mentions_option : mentions "--metric" metric_msg.
Proof.
  exists "Approach has no 'metric' defined. Use '", "' option to provide one.".
  reflexivity.
Qed.

(** For the embedding task in validate mode, when neither [--metric] nor
    the task gives a metric, the run raises the error of lines 359-361 and
    calls nothing. *)
Lemma no_metric_is_an_error env arg app :
  only Validate arg -> healthy env arg Validate app ->
  duration_resolves env arg app ->
  arg_emb arg = true -> arg_metric arg = None ->
  getattr (task_metric (task_ app)) = VNone ->
  result env arg = Err (Exn ValueError metric_msg) None /\
  calls (events env arg) = [].
Proof.
  intros Ho Hh Hdur Hemb Hopt Hattr.
  apply (main_only env arg Validate
           (fun r s => r = Err (Exn ValueError metric_msg) None /\
                       calls (trace s) = []) Ho).
  unpack_healthy Hh app; rewrite Hdev; cbn [task_ branch] in *.
  destruct Hnum as (Hfrom & Hto & Hevery & Hbatch & Hpar & Hnum).
  resolve_lookups; unfold validate_branch;
    parallel_cases env arg Hpar; wp_run; (split; [done|calls_of_trace]).
Qed.

(** C5: in a run of one mode, a lifecycle call receives a [metric] exactly
    when the task is the embedding ([emb]) and the mode is validate.  Then,
    nothing else failing, it is the value of [--metric] when the option is
    given, else the [metric] attribute of [app.task_] when there is one;
    and when there is none either, the run ends with a [ValueError] whose
    message names [--metric], and [validate] is not called. *)
Theorem metric_only_for_embedding_validation env arg m app :
  only m arg ->
  Forall (metric_ok arg m) (events env arg) /\
  (healthy env arg m app ->
   (m <> Train -> duration_resolves env arg app) ->
   (m = Train -> warm_start_resolves env arg) ->
   if arg_emb arg && is_validate m
   then match arg_metric arg with
        | Some name =>
            exists kw,
              calls (events env arg)
              = [(m, app, of_option (arg_protocol arg), kw)] /\
              kw !! "metric" = Some (VStr name)
        | None =>
            let property := getattr (task_metric (task_ app)) in
            if is_None property
            then result env arg = Err (Exn ValueError metric_msg) None /\
                 mentions "--metric" metric_msg /\
                 calls (events env arg) = []
            else exists kw,
                   calls (events env arg)
                   = [(m, app, of_option (arg_protocol arg), kw)] /\
                   kw !! "metric" = Some property
        end
   else exists kw,
          calls (events env arg)
          = [(m, app, of_option (arg_protocol arg), kw)] /\
          kw !! "metric" = None).
Proof.
  intros Ho. pose proof (metric_in_every_call env arg m Ho) as Hall.
  split; [done|]. intros Hh Hdur Hwarm.
  assert ((m = Validate -> arg_emb arg = true -> metric_resolves arg app) ->
          exists kw,
            calls (events env arg)
            = [(m, app, of_option (arg_protocol arg), kw)] /\
            metric_ok arg m (EvCall m app (of_option (arg_protocol arg)) kw))
    as Hlive.
  { intros Hf.
    assert (completes env arg m app) as Hc.
    { split; [done|]. destruct m; auto. }
    destruct (reaches_call env arg m app Ho Hc) as [kw Hkw].
    exists kw. split; [done|].
    apply (Forall_calls _ _ _ _ _ _ Hall Hkw). }
  unfold metric_resolves in Hlive. cbn [metric_ok] in Hlive.
  destruct (arg_emb arg && is_validate m) eqn:Hev.
  - apply andb_true_iff in Hev as [Hemb Hval].
    destruct m; try done.
    destruct (arg_metric arg) as [name|] eqn:Hopt; [by apply Hlive|].
    cbv zeta.
    destruct (is_None (getattr (task_metric (task_ app)))) eqn:Hnone.
    + apply is_None_true in Hnone.
      destruct (no_metric_is_an_error env arg app) as [Hr Hcalls];
        auto using metric_msg_mentions_option.
    + apply is_None_false in Hnone.
      destruct Hlive as (kw & Hkw & Hattr & Hok); [done|].
      by exists kw.
  - apply Hlive. intros -> Hemb. by rewrite Hemb in Hev.
Qed.

(** ** The directory (lines 285, 321 and 367) *)

(** C8: in a run of one mode, after the probe, the first thing asked of the
    outside is the strict resolution of the positional directory of the
    mode.  When the directory does not exist the run ends there with
    [FileNotFoundError]: no application is constructed and no lifecycle
    method is called.  The application is constructed only once the
    resolution has answered, from the resolved directory, and everything
    else (the lifecycle call included) comes after the construction. *)
Theorem directory_checked_before_construction env arg m p :
  only m arg -> positional m arg = Some p ->
  let d := VDevice (if arg_gpu arg then cuda else cpu) in
  match to_device env (if arg_gpu arg then cuda else cpu),
        resolve_strict env p, select_application arg with
  | Some e, _, _ =>
      result env arg = Err e None /\ events env arg = [EvProbe d]
  | None, None, _ =>
      result env arg = Err (not_a_path p) None /\
      events env arg = [EvProbe d; EvResolve p]
  | None, Some dir, None =>
      (exists e, result env arg = Err e None) /\
      events env arg = [EvProbe d; EvResolve p]
  | None, Some dir, Some c =>
      exists rest,
        events env arg
        = EvProbe d :: EvResolve p
            :: EvConstruct c (ctor_of m) dir (training_of m) :: rest /\
        Forall (fun ev => is_resolve ev = false /\ is_construct ev = false)
          rest
  end.
Proof.
  intros Ho Hpos d. unfold events.
  pattern (result env arg), (final env arg).
  match goal with |- ?Q _ _ => apply (main_only env arg m Q Ho) end.
  destruct (to_device env _) as [e|]; [done|].
  destruct m; cbn [branch positional ctor_of training_of] in *;
    [unfold train_branch | unfold validate_branch | unfold apply_branch];
    rewrite Hpos; wp_run;
    unfold probed, device_of; cbn [trace app];
    first [ done
          | by eauto
          | eexists; split; [reflexivity | by repeat constructor] ].
Qed.

(** ** Several modes at once (lines 284, 319 and 366) *)

Lemma called_snoc_call t m app p kw :
  called (t ++ [EvCall m app p kw]) = called t ++ [m].
Proof. unfold called. by rewrite calls_app, fmap_app. Qed.

Lemma called_snoc_other t ev :
  is_call ev = false -> called (t ++ [ev]) = called t.
Proof.
  intros H. unfold called. rewrite calls_app, fmap_app.
  destruct ev; try done; apply app_nil_r.
Qed.

Lemma passed_snoc_call t m app p kw :
  passed (t ++ [EvCall m app p kw]) = passed t ++ [kw].
Proof. unfold passed. by rewrite calls_app, fmap_app. Qed.

Lemma passed_snoc_other t ev :
  is_call ev = false -> passed (t ++ [ev]) = passed t.
Proof.
  intros H. unfold passed. rewrite calls_app, fmap_app.
  destruct ev; try done; apply app_nil_r.
Qed.

Section Stages.

Context (env : Env) (arg : Args).

Ltac staged :=
  unfold stage; cbn [trace];
  rewrite ?called_snoc_call, ?called_snoc_other by done;
  first [ by left | by right ].

Lemma train_stage cls p sub s :
  wp (train_branch env arg cls p sub) (stage Train s) s.
Proof. unfold train_branch. wp_run; staged. Qed.

Lemma validate_stage cls p sub s :
  wp (validate_branch env arg cls p sub) (stage Validate s) s.
Proof. unfold validate_branch. wp_run; staged. Qed.

Lemma apply_stage cls p sub s :
  wp (apply_branch env arg cls p sub) (stage Apply s) s.
Proof. unfold apply_branch. wp_run; staged. Qed.

Lemma when_stage (b : bool) m (body : M unit) l s :
  (forall s, wp body (stage m s) s) ->
  called (trace s) = l ->
  wp (when b body) (in_sequence (l ++ if b then [m] else [])) s.
Proof.
  intros Hbody Hl. destruct b; cbn [when].
  - eapply wp_wand; [apply Hbody|].
    intros r s' [H|[H Hr]]; rewrite Hl in H; split; rewrite ?H; try done.
    by apply prefix_app_r.
  - apply wp_ret. rewrite app_nil_r. by split; rewrite Hl.
Qed.

Lemma branches_in_sequence :
  in_sequence (wanted arg) (result env arg) (final env arg).
Proof.
  apply wp_main. destruct (to_device env _).
  { split; [apply prefix_nil|done]. }
  cbv zeta. unfold wanted.
  apply wp_bind.
  eapply wp_wand;
    [apply (when_stage _ Train _ []); [apply train_stage|done]|].
  intros [[]|e c] s1 [Hpre Heq]; cbn [app] in *;
    [|split; [by apply prefix_app_r|done]].
  apply wp_bind.
  eapply wp_wand;
    [apply (when_stage _ Validate); [apply validate_stage|by apply Heq]|].
  intros [[]|e c] s2 [Hpre2 Heq2];
    [|split; [rewrite app_assoc; by apply prefix_app_r|done]].
  rewrite app_assoc.
  apply (when_stage _ Apply); [apply apply_stage|by apply Heq2].
Qed.

End Stages.

Lemma reused_setitem k v m t :
  reused {| params := m; trace := t |} ->
  reused {| params := <[k := v]> m; trace := t |}.
Proof.
  intros [Hall Hsorted]. split; [|done]. cbn [params trace] in *.
  eapply Forall_impl; [exact Hall|].
  intros kw Hkw. unfold keys_grow in *.
  etrans; [exact Hkw|apply dom_insert_subseteq].
Qed.

Lemma reused_emit ev m t :
  is_call ev = false ->
  reused {| params := m; trace := t |} ->
  reused {| params := m; trace := t ++ [ev] |}.
Proof.
  intros Hev [Hall Hsorted]. unfold reused. cbn [params trace] in *.
  by rewrite passed_snoc_other.
Qed.

Lemma reused_call md app p m t :
  reused {| params := m; trace := t |} ->
  reused {| params := m; trace := t ++ [EvCall md app p m] |}.
Proof.
  intros [Hall Hsorted]. unfold reused. cbn [params trace] in *.
  rewrite passed_snoc_call. split.
  - apply Forall_app. split; [done|]. apply Forall_singleton.
    unfold keys_grow. reflexivity.
  - apply StronglySorted_app. split_and!; [|done|by repeat constructor].
    intros a b Ha Hb. apply list_elem_of_singleton in Hb as ->.
    rewrite Forall_forall in Hall. by apply Hall.
Qed.

Section Reuse.

Context (env : Env) (arg : Args).

Ltac kept :=
  match goal with
  | H : reused ?s |- _ =>
      destruct s;
      repeat first [ apply reused_call
                   | apply reused_emit; [done|]
                   | apply reused_setitem ];
      exact H
  end.

Lemma train_reuses cls p sub s :
  reused s -> wp (train_branch env arg cls p sub) (fun _ s' => reused s') s.
Proof. intros H. unfold train_branch. wp_run; kept. Qed.

Lemma validate_reuses cls p sub s :
  reused s ->
  wp (validate_branch env arg cls p sub) (fun _ s' => reused s') s.
Proof. intros H. unfold validate_branch. wp_run; kept. Qed.

Lemma apply_reuses cls p sub s :
  reused s -> wp (apply_branch env arg cls p sub) (fun _ s' => reused s') s.
Proof. intros H. unfold apply_branch. wp_run; kept. Qed.

End Reuse.

Lemma handed_snoc_call t m app p kw :
  handed (t ++ [EvCall m app p kw]) = handed t ++ [(m, kw)].
Proof. unfold handed. by rewrite calls_app, fmap_app. Qed.

Lemma handed_snoc_other t ev :
  is_call ev = false -> handed (t ++ [ev]) = handed t.
Proof.
  intros H. unfold handed. rewrite calls_app, fmap_app.
  destruct ev; try done; apply app_nil_r.
Qed.

Lemma threaded_snoc emb before cs m kw :
  threaded emb before cs ->
  (exists own, dom own = written m emb /\ kw = own ∪ latest before cs) ->
  threaded emb before (cs ++ [(m, kw)]).
Proof.
  revert before. induction cs as [|[m' kw'] cs IH]; intros before H Hown.
  - by split.
  - destruct H as [H1 H2]. split; [done|]. by apply IH.
Qed.

Lemma latest_snoc before cs m kw : latest before (cs ++ [(m, kw)]) = kw.
Proof.
  revert before. induction cs as [|[m' kw'] cs IH]; intros before; [done|].
  apply IH.
Qed.

(** An assignment to [params] is an assignment to the part of it that the
    branch wrote. *)
Lemma own_insert k (v : value) (own before kw : gmap string value) :
  kw = own ∪ before -> <[k := v]> kw = <[k := v]> own ∪ before.
Proof. intros ->. by rewrite insert_union_l. Qed.

Lemma own_nothing (before : gmap string value) : before = ∅ ∪ before.
Proof. by rewrite (left_id_L ∅ (∪)). Qed.

Section Shared.

Context (env : Env) (arg : Args).

Ltac kept :=
  match goal with
  | H : shared _ _ |- _ =>
      let Hthread := fresh "Hthread" in
      let Hparams := fresh "Hparams" in
      destruct H as [Hthread Hparams];
      unfold shared; cbn [params trace];
      rewrite ?handed_snoc_call, ?handed_snoc_other by done;
      rewrite ?latest_snoc;
      first [ assumption | split; [|reflexivity] | idtac ];
      first
        [ assumption
        | apply threaded_snoc; [assumption|];
          rewrite <- Hparams;
          eexists; split; [|repeat apply own_insert; apply own_nothing];
          cbn [written]; on_path;
          rewrite !dom_insert_L, dom_empty_L; cbn [app list_to_set foldr];
          set_solver ]
  end.

Lemma train_hands_on cls p sub s :
  shared arg s -> wp (train_branch env arg cls p sub) (handed_on arg) s.
Proof. intros H. unfold train_branch. wp_run; cbn [handed_on]; kept. Qed.

Lemma validate_hands_on cls p sub s :
  shared arg s -> wp (validate_branch env arg cls p sub) (handed_on arg) s.
Proof. intros H. unfold validate_branch. wp_run; cbn [handed_on]; kept. Qed.

Lemma apply_hands_on cls p sub s :
  shared arg s -> wp (apply_branch env arg cls p sub) (handed_on arg) s.
Proof. intros H. unfold apply_branch. wp_run; cbn [handed_on]; kept. Qed.

End Shared.

Lemma branches_hand_on env arg cls p sub s :
  shared arg s ->
  wp (when (arg_train arg) (train_branch env arg cls p sub);;
      when (arg_validate arg) (validate_branch env arg cls p sub);;
      when (arg_apply arg) (apply_branch env arg cls p sub))
     (handed_on arg) s.
Proof.
  intros Hs.
  assert (Hw : forall b (m : M unit) s0,
             (forall s, shared arg s -> wp m (handed_on arg) s) ->
             shared arg s0 -> wp (when b m) (handed_on arg) s0).
  { intros [] m s0 Hm H0; [by apply Hm | by apply wp_ret]. }
  apply wp_bind.
  eapply wp_wand; [apply Hw; [apply train_hands_on|exact Hs]|].
  intros [[]|e c] s1 H1; [|exact H1].
  apply wp_bind.
  eapply wp_wand; [apply Hw; [apply validate_hands_on|exact H1]|].
  intros [[]|e' c'] s2 H2; [|exact H2].
  apply Hw; [apply apply_hands_on|exact H2].
Qed.

Lemma one_dictionary env arg :
  threaded (arg_emb arg) (with_device arg) (handed (events env arg)).
Proof.
  apply (wp_main env arg
           (fun _ s => threaded (arg_emb arg) (with_device arg)
                         (handed (trace s)))).
  destruct (to_device env _); [done|]. cbv zeta.
  eapply wp_wand; [apply branches_hand_on; by split|].
  intros [[]|e c] s' H; [apply H|exact H].
Qed.

(** C6: whatever flags among [train], [validate] and [apply] are set, the
    branches whose flag is set run one after the other in the order train,
    validate, apply: the lifecycle calls of a run are the first of that
    list, and the whole list when the run ends normally.  They are all
    handed the one dictionary [params]: the first call receives the
    dictionary that holds the device with values for the keys its branch
    assigns, and each later call receives the dictionary of the call before
    it updated with values for the keys its own branch assigns; so the key
    sets only grow. *)
Theorem branches_share_params env arg :
  called (events env arg) `prefix_of` wanted arg /\
  (result env arg = Ok tt -> called (events env arg) = wanted arg) /\
  StronglySorted keys_grow (passed (events env arg)) /\
  threaded (arg_emb arg)
    (<["device" := VDevice (if arg_gpu arg then cuda else cpu)]> ∅)
    (handed (events env arg)).
Proof.
  destruct (branches_in_sequence env arg) as [Hpre Hall].
  split_and!; [done..| |apply one_dictionary].
  apply (main_keeps env arg reused);
    auto using train_reuses, validate_reuses, apply_reuses.
  split; cbn; by repeat constructor.
Qed.

(** ** The model registry (lines 302-310) *)

Lemma append_assoc (s1 s2 s3 : string) :
  (s1 +:+ s2) +:+ s3 = s1 +:+ (s2 +:+ s3).
Proof.
  induction s1 as [|c s1 IH]; [done|]. exact (f_equal (String c) IH).
Qed.

(** The message of lines 307-309 contains the text of the exception. *)
Lemma hub_msg_mentions_cause n e : mentions (exn_text e) (hub_msg n e).
Proof.
  unfold hub_msg.
  exists ("Could not load " +:+ quote +:+ pretty n +:+ quote +:+
          " model from torch.hub." +:+
          "The following exception was raised:" +:+ newline +:+ newline),
         (newline +:+ newline).
  by rewrite !append_assoc.
Qed.

(** When the hub raises, the handler of lines 306-310 builds its message
    and then evaluates [sys.exit]: [sys] is not bound, so the run ends
    with [NameError], raised while handling the exception of the hub. *)
Lemma fetch_failure_raises_NameError env arg app name e :
  only Train arg -> built env arg Train app ->
  is_Some (py_int env (arg_from arg)) ->
  arg_pretrained arg = Some name -> path_exists env name = false ->
  hub_load env name = inl e -> is_Exception (exn_kind_of e) = true ->
  result env arg = Err unbound_sys (Some e) /\
  calls (events env arg) = [].
Proof.
  intros Ho Hb [n Hn] Hpre Hex Hhub He.
  apply (main_only env arg Train
           (fun r s => r = Err unbound_sys (Some e) /\ calls (trace s) = [])
           Ho).
  destruct Hb as (Hdev & (root & Hpos & Hres) & Hcls & Hctor & Htr & Hbuild).
  destruct app as [c k dir tr t].
  cbn [app_class app_ctor app_dir app_training task_ positional ctor_of
       training_of] in *; subst.
  rewrite Hdev. cbn [branch]. unfold train_branch.
  wp_run. split; [done|calls_of_trace].
Qed.

(** *** What reaches the error stream *)

Lemma mentions_self (s : string) : mentions s s.
Proof.
  exists EmptyString, EmptyString.
  induction s as [|c s IH]; [done|]. exact (f_equal (String c) IH).
Qed.

Lemma mentions_after (word a b : string) :
  mentions word b -> mentions word (a +:+ b).
Proof.
  intros (before & after & ->). exists (a +:+ before), after.
  by rewrite append_assoc.
Qed.

Lemma mentions_before (word a b : string) :
  mentions word a -> mentions word (a +:+ b).
Proof.
  intros (before & after & ->). exists before, (after +:+ b).
  by rewrite !append_assoc.
Qed.

Lemma headline_mentions_text e : mentions (exn_text e) (headline e).
Proof.
  unfold headline. destruct (exn_text e) as [|c text] eqn:Htext.
  - by exists EmptyString, (kind_name (exn_kind_of e)).
  - do 2 apply mentions_after. apply mentions_self.
Qed.

Lemma report_mentions_text py e : mentions (exn_text e) (report py e).
Proof.
  unfold report. apply mentions_after, mentions_before, headline_mentions_text.
Qed.

(** Events of a trace that was built event by event. *)
Ltac find_event H :=
  unfold probed in H; cbn [trace] in H;
  rewrite ?elem_of_app, ?elem_of_cons, ?elem_of_nil in H;
  repeat match type of H with
    | _ \/ _ => destruct H as [H|H]
    end;
  try discriminate H; try contradiction.

(** When the fetch from the hub is made and raises, the handler of lines
    306-310 builds its message and then evaluates [sys.exit]: [sys] is not
    bound, so [NameError] leaves [main], raised while the exception of the
    hub was handled. *)
Lemma fetch_failure_meets_unbound_name env arg name e :
  only Train arg -> EvHubLoad name ∈ events env arg ->
  hub_load env name = inl e -> is_Exception (exn_kind_of e) = true ->
  result env arg = Err unbound_sys (Some e) /\
  calls (events env arg) = [] /\
  arg_pretrained arg = Some name /\ path_exists env name = false.
Proof.
  intros Ho Hin Hhub He. revert Hin.
  refine (main_only env arg Train
            (fun r s =>
               EvHubLoad name ∈ trace s ->
               r = Err unbound_sys (Some e) /\
               calls (trace s) = [] /\
               arg_pretrained arg = Some name /\
               path_exists env name = false) Ho _).
  destruct (to_device env _); [intros Hin; by find_event Hin|].
  cbn [branch]. unfold train_branch.
  wp_run; intros Hin; find_event Hin;
    injection Hin as <-; try congruence.
  assert (e0 = e) as -> by congruence.
  split_and!; [done|calls_of_trace|done|done].
Qed.



(** ** The theorems at the sample command lines *)

Lemma docopt_only c m dir protocol opts :
  only m (docopt c m dir protocol opts).
Proof. by destruct m. Qed.

(** Facts about the sample environment hold by computation. *)
Ltac computed :=
  vm_compute;
  repeat first
    [ split
    | progress intros
    | match goal with
      | H : Some _ = Some _ |- _ => injection H as <-
      | H : _ = _ |- _ => discriminate H
      | |- _ = _ => reflexivity
      | |- _ <> _ => discriminate
      | |- @ex _ _ => eexists
      end ].


Lemma duration_three_tiers_witness :
  (result (Sample.world Sample.bare) validate_speech
   = Err (Exn ValueError duration_msg) None /\
   mentions "--duration" duration_msg /\
   calls (events (Sample.world Sample.bare) validate_speech) = []) /\
  (exists kw,
     calls (events Sample.env apply_on_gpu)
     = [(Apply, sample_app SpeakerChangeDetection Apply Sample.configured,
         VStr Sample.protocol, kw)] /\
     kw !! "duration" = Some Sample.two).
Proof.
  split.
  - exact (duration_three_tiers (Sample.world Sample.bare) validate_speech
             Validate
             (sample_app SpeechActivityDetection Validate Sample.bare)
             ltac:(discriminate) ltac:(apply docopt_only) ltac:(computed)).
  - exact (duration_three_tiers Sample.env apply_on_gpu Apply
             (sample_app SpeakerChangeDetection Apply Sample.configured)
             ltac:(discriminate) ltac:(apply docopt_only) ltac:(computed)
             ltac:(discriminate)).
Defined.

Lemma subset_defaults_witness :
  exists kw,
    calls (events Sample.env apply_on_gpu)
    = [(Apply, sample_app SpeakerChangeDetection Apply Sample.configured,
        VStr Sample.protocol, kw)] /\
    kw !! "subset" = Some (VStr "test").
Proof.
  exact (proj2 (subset_defaults Sample.env apply_on_gpu) Apply
           (sample_app SpeakerChangeDetection Apply Sample.configured)
           ltac:(apply docopt_only) ltac:(computed)).
Defined.

Lemma warm_start_of_train_witness :
  exists kw,
    calls (events Sample.env train_from_checkpoint)
    = [(Train, sample_app SpeechActivityDetection Train Sample.configured,
        VStr Sample.protocol, kw)] /\
    kw !! "warm_start" = Some (VPath "/exp/weights/0050.pt").
Proof.
  destruct (proj1 (warm_start_of_train Sample.env train_from_checkpoint)
              (sample_app SpeechActivityDetection Train Sample.configured)
              ltac:(apply docopt_only) ltac:(computed))
    as (kw & Hkw & Hwarm).
  exists kw. split; [exact Hkw|]. exact (Hwarm eq_refl).
Defined.

Lemma metric_only_for_embedding_validation_witness :
  result (Sample.world Sample.bare) validate_with_duration
  = Err (Exn ValueError metric_msg) None /\
  mentions "--metric" metric_msg /\
  calls (events (Sample.world Sample.bare) validate_with_duration) = [].
Proof.
  exact (proj2 (metric_only_for_embedding_validation
                  (Sample.world Sample.bare) validate_with_duration Validate
                  (sample_app SpeakerEmbedding Validate Sample.bare)
                  ltac:(apply docopt_only))
           ltac:(computed) ltac:(computed) ltac:(discriminate)).
Defined.

Lemma branches_share_params_witness :
  called (events Sample.env all_modes) = [Train; Validate; Apply].
Proof.
  apply (proj1 (proj2 (branches_share_params Sample.env all_modes))).
  vm_compute. reflexivity.
Defined.

Lemma directory_checked_before_construction_witness :
  result Sample.env train_nowhere = Err (not_a_path "/nowhere") None /\
  events Sample.env train_nowhere
  = [EvProbe (VDevice cpu); EvResolve "/nowhere"].
Proof.
  exact (directory_checked_before_construction Sample.env train_nowhere
           Train "/nowhere" ltac:(apply docopt_only) ltac:(reflexivity)).
Defined.

Lemma n_jobs_of_validate_witness :
  exists kw,
    calls (events Sample.env validate_embedding)
    = [(Validate, sample_app SpeakerEmbedding Validate Sample.configured,
        VStr Sample.protocol, kw)] /\
    kw !! "n_jobs" = Some (VInt 4).
Proof.
  destruct (proj2 (n_jobs_of_validate Sample.env validate_embedding)
              (sample_app SpeakerEmbedding Validate Sample.configured)
              ltac:(apply docopt_only) ltac:(computed))
    as (kw & Hkw & n & Hn & Hjobs).
  exists kw. split; [exact Hkw|].
  vm_compute in Hn. injection Hn as <-. exact Hjobs.
Defined.

Lemma device_reaches_every_call_witness :
  exists kw,
    calls (events Sample.env apply_on_gpu)
    = [(Apply, sample_app SpeakerChangeDetection Apply Sample.configured,
        VStr Sample.protocol, kw)] /\
    kw !! "device" = Some (VDevice cuda).
Proof.
  exact (proj2 (device_reaches_every_call Sample.env apply_on_gpu) Apply
           (sample_app SpeakerChangeDetection Apply Sample.configured)
           ltac:(apply docopt_only) ltac:(computed)).
Defined.

(** ** Sample runs *)

(** [pyannote-audio sad train /exp <protocol>] calls [train] of the speech
    activity detection application with the subset ["train"], a warm start
    at epoch 0, 100 epochs and the CPU device, and nothing else. *)
Example train_with_defaults :
  calls (events Sample.env
           (docopt SpeechActivityDetection Train "/exp" Sample.protocol []))
  = [(Train, sample_app SpeechActivityDetection Train Sample.configured,
      VStr Sample.protocol,
      <["epochs" := VInt 100]>
        (<["warm_start" := VInt 0]>
           (<["subset" := VStr "train"]>
              (<["device" := VDevice cpu]> ∅))))].
Proof. vm_compute. reflexivity. Qed.

(** With the three modes at once, [apply] is the third call and receives
    what the branches of [train] and [validate] left in [params]. *)
Example apply_receives_earlier_keys :
  let third := passed (events Sample.env all_modes) !! 2%nat in
  third ≫= (.!! "warm_start") = Some (VInt 0) /\
  third ≫= (.!! "n_jobs") = Some (VInt 8) /\
  third ≫= (.!! "subset") = Some (VStr "test").
Proof. vm_compute. by repeat split. Qed.

(** Splitting a property of all events along the trace, down to the
    events themselves. *)
Ltac each_event :=
  cbn [params trace];
  repeat (apply Forall_app; split); try assumption;
  try apply Forall_singleton.

(** ** The application and the protocol (lines 260-273, 281, 286, 322 and
    368) *)

Section ReceiverInvariant.

Context (env : Env) (arg : Args).

Ltac kept :=
  each_event; cbn [receiver_ok app_class app_ctor app_dir app_training
                    task_ ctor_of training_of positional];
  first [ done
        | split; [done|];
          (exists Train + exists Validate + exists Apply);
          cbn [ctor_of training_of positional]; by eauto
        | split_and!; by eauto ].

Lemma train_keeps_receiver s :
  Forall (receiver_ok env arg) (trace s) ->
  wp (train_branch env arg (select_application arg)
        (of_option (arg_protocol arg)) (arg_subset arg))
     (fun _ s' => Forall (receiver_ok env arg) (trace s')) s.
Proof. intros H. unfold train_branch. wp_run; kept. Qed.

Lemma validate_keeps_receiver s :
  Forall (receiver_ok env arg) (trace s) ->
  wp (validate_branch env arg (select_application arg)
        (of_option (arg_protocol arg)) (arg_subset arg))
     (fun _ s' => Forall (receiver_ok env arg) (trace s')) s.
Proof. intros H. unfold validate_branch. wp_run; kept. Qed.

Lemma apply_keeps_receiver s :
  Forall (receiver_ok env arg) (trace s) ->
  wp (apply_branch env arg (select_application arg)
        (of_option (arg_protocol arg)) (arg_subset arg))
     (fun _ s' => Forall (receiver_ok env arg) (trace s')) s.
Proof. intros H. unfold apply_branch. wp_run; kept. Qed.

End ReceiverInvariant.

Lemma docopt_selects c m dir protocol opts :
  select_application (docopt c m dir protocol opts) = Some c.
Proof. by destruct c. Qed.

(** X1: in every run, an application is only constructed from the class
    that the task flag selects, by the constructor of a mode ([Init] with
    [training=True], [from_train_dir] and [from_validate_dir] with
    [training=False]) and from the resolved positional directory of that
    mode; every lifecycle call is made on the application so obtained for
    its own mode and is given [<protocol>] unchanged.  On a command line
    for task [c], the class selected is [c]. *)
Theorem application_and_protocol env arg :
  Forall (receiver_ok env arg) (events env arg) /\
  forall c m dir protocol opts,
    arg = docopt c m dir protocol opts -> select_application arg = Some c.
Proof.
  split.
  - apply (main_keeps env arg (fun s => Forall (receiver_ok env arg) (trace s)));
      auto using train_keeps_receiver, validate_keeps_receiver,
                 apply_keeps_receiver.
    by repeat constructor.
  - intros c m dir protocol opts ->. apply docopt_selects.
Qed.

(** ** No task (lines 260-273) *)

Section NoTask.

Context (env : Env) (arg : Args).

Lemma train_idle p sub s :
  Forall idle (trace s) ->
  wp (train_branch env arg None p sub) (fun _ s' => Forall idle (trace s')) s.
Proof. intros H. unfold train_branch. wp_run; each_event; done. Qed.

Lemma validate_idle p sub s :
  Forall idle (trace s) ->
  wp (validate_branch env arg None p sub)
     (fun _ s' => Forall idle (trace s')) s.
Proof. intros H. unfold validate_branch. wp_run; each_event; done. Qed.

Lemma apply_idle p sub s :
  Forall idle (trace s) ->
  wp (apply_branch env arg None p sub) (fun _ s' => Forall idle (trace s')) s.
Proof. intros H. unfold apply_branch. wp_run; each_event; done. Qed.

End NoTask.

(** X2: when none of the five task flags is set, [Application] stays
    unbound: no application is constructed and no lifecycle method is
    called, whatever the modes; and a run of one mode whose directory
    resolves ends with [UnboundLocalError]. *)
Theorem no_task_no_application env arg :
  arg_sad arg || arg_scd arg || arg_ovl arg || arg_emb arg || arg_dom arg
  = false ->
  Forall idle (events env arg) /\
  forall m p dir,
    only m arg ->
    to_device env (if arg_gpu arg then cuda else cpu) = None ->
    positional m arg = Some p -> resolve_strict env p = Some dir ->
    exists text, result env arg = Err (Exn UnboundLocalError text) None.
Proof.
  intros Hflags.
  assert (select_application arg = None) as Hsel.
  { unfold select_application.
    by destruct (arg_sad arg), (arg_scd arg), (arg_ovl arg), (arg_emb arg),
         (arg_dom arg). }
  split.
  - apply (main_keeps env arg (fun s => Forall idle (trace s)));
      cbv zeta; rewrite ?Hsel;
      auto using train_idle, validate_idle, apply_idle.
    by repeat constructor.
  - intros m p dir Ho Hdev Hpos Hres.
    apply (main_only env arg m
             (fun r _ => exists text, r = Err (Exn UnboundLocalError text) None)
             Ho).
    rewrite Hdev, Hsel.
    destruct m; cbn [branch positional] in *;
      [unfold train_branch | unfold validate_branch | unfold apply_branch];
      wp_run; by eexists.
Qed.

(** ** The keys of the dictionary (lines 275-384) *)

(** X3: in a run of one mode, the dictionary a lifecycle call receives has
    exactly the keys of its mode: [device], [subset], [warm_start] and
    [epochs] for [train]; [device], [subset], [batch_size], [duration] and
    [step] for [apply]; and for [validate] the thirteen keys of lines
    324-351, with [metric] for the embedding task and without it
    otherwise. *)
Theorem keys_of_each_mode env arg m :
  only m arg -> Forall (keys_ok arg m) (events env arg).
Proof.
  intros Ho.
  apply (main_only env arg m (fun _ s => Forall (keys_ok arg m) (trace s)) Ho).
  destruct (to_device env _); [by repeat constructor|].
  destruct m; cbn [branch];
    [unfold train_branch | unfold validate_branch | unfold apply_branch];
    wp_run; unfold probed; each_event; try done;
    cbn [keys_ok keys_of]; on_path;
    rewrite !dom_insert_L, dom_empty_L; cbn [app list_to_set foldr];
    set_solver.
Qed.

(** ** The converted options (lines 315, 325-329, 336-338, 351, 371, 384) *)

Section OptionsInvariant.

Context (env : Env) (arg : Args).

Ltac kept :=
  each_event; try done;
  cbn [options_ok]; unfold int_kwarg, float_kwarg;
  split_and?;
  first [ eexists; split; [eassumption|by_lookup] | by_lookup ].

Lemma train_keeps_options cls p sub s :
  Forall (options_ok env arg) (trace s) ->
  wp (train_branch env arg cls p sub)
     (fun _ s' => Forall (options_ok env arg) (trace s')) s.
Proof. intros H. unfold train_branch. wp_run; kept. Qed.

Lemma validate_keeps_options cls p sub s :
  Forall (options_ok env arg) (trace s) ->
  wp (validate_branch env arg cls p sub)
     (fun _ s' => Forall (options_ok env arg) (trace s')) s.
Proof. intros H. unfold validate_branch. wp_run; kept. Qed.

Lemma apply_keeps_options cls p sub s :
  Forall (options_ok env arg) (trace s) ->
  wp (apply_branch env arg cls p sub)
     (fun _ s' => Forall (options_ok env arg) (trace s')) s.
Proof. intros H. unfold apply_branch. wp_run; kept. Qed.

End OptionsInvariant.

Lemma options_in_every_call env arg :
  Forall (options_ok env arg) (events env arg).
Proof.
  apply (main_keeps env arg (fun s => Forall (options_ok env arg) (trace s)));
    auto using train_keeps_options, validate_keeps_options,
               apply_keeps_options.
  by repeat constructor.
Qed.

(** X4: every lifecycle call of every run receives the options of its mode
    converted: [train] gets [epochs = int(--to)]; [validate] gets
    [start = int(--from)], [end = int(--to)], [every = int(--every)],
    [chronological = not --evergreen], [batch_size = int(--batch)],
    [purity], [precision] and [step] as floats and [diarization] as the
    flag; [apply] gets [batch_size] and [step].  In a run of one mode in
    which every step succeeds, the call is made with them. *)
Theorem options_reach_calls env arg :
  Forall (options_ok env arg) (events env arg) /\
  forall m app,
    only m arg -> completes env arg m app ->
    exists kw,
      calls (events env arg) = [(m, app, of_option (arg_protocol arg), kw)] /\
      options_ok env arg (EvCall m app (of_option (arg_protocol arg)) kw).
Proof.
  pose proof (options_in_every_call env arg) as Hall.
  split; [done|]. intros m app Ho Hc.
  destruct (reaches_call env arg m app Ho Hc) as [kw Hkw].
  exists kw. split; [done|].
  apply (Forall_calls _ _ _ _ _ _ Hall Hkw).
Qed.

(** ** What leaves [main] (lines 317, 364 and 386) *)

Lemma calls_snoc_call t m app p kw :
  calls (t ++ [EvCall m app p kw]) = calls t ++ [(m, app, p, kw)].
Proof. by rewrite calls_app. Qed.

Lemma calls_snoc_other t ev : is_call ev = false -> calls (t ++ [ev]) = calls t.
Proof. intros H. rewrite calls_app. destruct ev; try done; apply app_nil_r. Qed.

Lemma calls_probed arg : calls (trace (probed arg)) = [].
Proof. done. Qed.

(** The calls of a trace that was built event by event, in the goal. *)
Ltac count_calls :=
  cbn [trace];
  rewrite ?calls_snoc_call, ?calls_snoc_other, ?calls_probed by done;
  cbn [app].

(** X5: a run of one mode makes at most one lifecycle call, the one of its
    mode.  When it makes none, an exception leaves [main]; when it makes
    one, [main] returns normally if the method returns, and the exception
    of the method leaves [main] unchanged if it raises. *)
Theorem outcome_of_a_run env arg m :
  only m arg -> outcome_ok env m (result env arg) (calls (events env arg)).
Proof.
  intros Ho.
  apply (main_only env arg m
           (fun r s => outcome_ok env m r (calls (trace s))) Ho).
  destruct (to_device env _); [rewrite calls_probed; cbn; by eauto|].
  destruct m; cbn [branch];
    [unfold train_branch | unfold validate_branch | unfold apply_branch];
    wp_run; count_calls; cbn [outcome_ok];
    first [ by eauto | split; [done|]; on_path; done ].
Qed.

(** ** When the lifecycle method is called *)

(** One condition of [completes], from the equations of the path taken. *)
Ltac from_path :=
  unfold duration_resolves, metric_resolves, warm_start_resolves;
  cbn [task_];
  intros; on_path;
  first
    [ done
    | congruence
    | by eauto
    | by apply is_None_false
    | match goal with
      | |- is_Some ?x =>
          match goal with H : x = Some _ |- _ => rewrite H; by eexists end
      | H : Some _ = Some ?s |- is_Some _ =>
          injection H as <-;
          match goal with H' : _ = Some _ |- _ => rewrite H'; by eexists end
      | H : ?a = Some ?s0, H' : ?a = Some ?s |- is_Some _ =>
          rewrite H in H'; injection H' as <-;
          match goal with H'' : _ = Some _ |- _ => rewrite H''; by eexists end
      end ].

Lemma call_needs_completes env arg m :
  only m arg -> calls (events env arg) <> [] ->
  exists app, completes env arg m app.
Proof.
  intros Ho.
  apply (main_only env arg m
           (fun _ s => calls (trace s) <> [] ->
                       exists app, completes env arg m app) Ho).
  destruct (to_device env _) eqn:Hdev; [by rewrite calls_probed|].
  destruct m; cbn [branch];
    [unfold train_branch | unfold validate_branch | unfold apply_branch];
    wp_run; count_calls; intros Hne; try done;
    match goal with H : [(_, ?app, _, _)] <> [] |- _ => exists app end;
    unfold completes, healthy, built;
    cbn [app_class app_ctor app_dir app_training task_ positional ctor_of
         training_of numbers_parse];
    split_and!; from_path.
Qed.

(** X6: in a run of one mode the lifecycle method is called exactly when
    every earlier step of the branch succeeds: the probe, the resolution of
    the directory, the selection and construction of the application, each
    conversion of a numeric option, and the lookups of the warm start, the
    duration and the metric.  Any one of them failing means no call. *)
Theorem call_iff_every_step_succeeds env arg m :
  only m arg ->
  calls (events env arg) <> [] <-> exists app, completes env arg m app.
Proof.
  intros Ho. split; [by apply call_needs_completes|].
  intros [app Hc].
  destruct (reaches_call env arg m app Ho Hc) as [kw Hkw]. by rewrite Hkw.
Qed.

(** ** What is asked only when needed (lines 299, 304 and 333) *)

(** X7: in a run of one mode, [Path(pretrained).exists()] is evaluated in
    train mode only and on the value of [--pretrained]; the hub is
    contacted in train mode only, for a [--pretrained] that is no existing
    path; and [multiprocessing.cpu_count()] is called in validate mode only,
    when [--parallel] is absent. *)
Theorem collaborators_asked_when_needed env arg m :
  only m arg -> Forall (sparing env arg m) (events env arg).
Proof.
  intros Ho.
  apply (main_only env arg m (fun _ s => Forall (sparing env arg m) (trace s))
           Ho).
  destruct (to_device env _); [by repeat constructor|].
  destruct m; cbn [branch];
    [unfold train_branch | unfold validate_branch | unfold apply_branch];
    wp_run; unfold probed; each_event; by cbn [sparing].
Qed.

(** ** The answers of the hub (lines 303-310) *)

(** X8: in train mode, when [--pretrained] names no existing path and the
    hub answers, [train] is called with that answer as [warm_start],
    whatever [--from] holds. *)
Theorem warm_start_from_hub env arg app name v :
  only Train arg -> healthy env arg Train app ->
  arg_pretrained arg = Some name -> path_exists env name = false ->
  hub_load env name = inr v ->
  exists kw,
    calls (events env arg)
    = [(Train, app, of_option (arg_protocol arg), kw)] /\
    kw !! "warm_start" = Some v.
Proof.
  intros Ho Hh Hpre Hex Hhub.
  assert (completes env arg Train app) as Hc.
  { split; [done|]. unfold warm_start_resolves. rewrite Hpre. by eauto. }
  destruct (reaches_call env arg Train app Ho Hc) as [kw Hkw].
  exists kw. split; [done|].
  pose proof (Forall_calls _ _ _ _ _ _ (warm_start_in_every_call env arg) Hkw)
    as H.
  cbn [warm_start_ok] in H. rewrite Hpre, Hex in H.
  destruct H as (v' & Hv' & H). congruence.
Qed.

(** X9: the handler of line 306 catches [Exception] only: when the hub
    raises [KeyboardInterrupt] or [SystemExit], that exception leaves
    [main] as it is, and [train] is not called. *)
Theorem hub_interrupt_passes_through env arg app name e :
  only Train arg -> built env arg Train app ->
  is_Some (py_int env (arg_from arg)) ->
  arg_pretrained arg = Some name -> path_exists env name = false ->
  hub_load env name = inl e -> is_Exception (exn_kind_of e) = false ->
  result env arg = Err e None /\ calls (events env arg) = [].
Proof.
  intros Ho Hb [n Hn] Hpre Hex Hhub He.
  apply (main_only env arg Train
           (fun r s => r = Err e None /\ calls (trace s) = []) Ho).
  destruct Hb as (Hdev & (root & Hpos & Hres) & Hcls & Hctor & Htr & Hbuild).
  destruct app as [c k dir tr t].
  cbn [app_class app_ctor app_dir app_training task_ positional ctor_of
       training_of] in *; subst.
  rewrite Hdev. cbn [branch]. unfold train_branch.
  wp_run. split; [done|calls_of_trace].
Qed.

(** ** The further theorems at the sample command lines *)

Lemma application_and_protocol_witness :
  select_application validate_embedding = Some SpeakerEmbedding.
Proof.
  exact (proj2 (application_and_protocol Sample.env validate_embedding)
           SpeakerEmbedding Validate "/exp" Sample.protocol
           [("--parallel", "4")] ltac:(reflexivity)).
Defined.

Lemma no_task_no_application_witness :
  exists text,
    result Sample.env no_task = Err (Exn UnboundLocalError text) None.
Proof.
  apply (proj2 (no_task_no_application Sample.env no_task ltac:(reflexivity))
           Train "/exp" "/exp"); computed.
Defined.

Lemma keys_of_each_mode_witness :
  Forall (keys_ok apply_on_gpu Apply) (events Sample.env apply_on_gpu).
Proof.
  apply (keys_of_each_mode Sample.env apply_on_gpu Apply).
  apply docopt_only.
Defined.

Lemma options_reach_calls_witness :
  exists kw,
    calls (events Sample.env validate_evergreen)
    = [(Validate, sample_app SpeechActivityDetection Validate Sample.configured,
        VStr Sample.protocol, kw)] /\
    kw !! "chronological" = Some (VBool false) /\
    kw !! "batch_size" = Some (VInt 32).
Proof.
  destruct (proj2 (options_reach_calls Sample.env validate_evergreen)
              Validate
              (sample_app SpeechActivityDetection Validate Sample.configured)
              ltac:(apply docopt_only) ltac:(computed))
    as (kw & Hkw & _ & _ & _ & Hchrono & (n & Hn & Hbatch) & _).
  exists kw. split; [exact Hkw|]. split; [exact Hchrono|].
  vm_compute in Hn. injection Hn as <-. exact Hbatch.
Defined.

Lemma outcome_of_a_run_witness :
  outcome_ok (failing_world Sample.not_found) Train
    (result (failing_world Sample.not_found) train_from_checkpoint)
    (calls (events (failing_world Sample.not_found) train_from_checkpoint)).
Proof.
  apply (outcome_of_a_run (failing_world Sample.not_found)
           train_from_checkpoint Train).
  apply docopt_only.
Defined.

Lemma call_iff_every_step_succeeds_witness :
  calls (events Sample.env train_from_checkpoint) <> [] /\
  ~ (exists app, completes Sample.env train_until_soon Train app).
Proof.
  split.
  - apply (proj2 (call_iff_every_step_succeeds Sample.env
                    train_from_checkpoint Train ltac:(apply docopt_only))).
    exists (sample_app SpeechActivityDetection Train Sample.configured).
    computed.
  - intros [app [[_ [_ Hto]] _]]. vm_compute in Hto.
    destruct Hto as [n Hn]. discriminate Hn.
Defined.

Lemma collaborators_asked_when_needed_witness :
  Forall (sparing Sample.env validate_embedding Validate)
    (events Sample.env validate_embedding).
Proof.
  apply (collaborators_asked_when_needed Sample.env validate_embedding
           Validate).
  apply docopt_only.
Defined.

Lemma warm_start_from_hub_witness :
  exists kw,
    calls (events (hub_world (inr (VStr "/cache/emb_voxceleb.pt")))
             train_from_hub)
    = [(Train, sample_app SpeechActivityDetection Train Sample.configured,
        VStr Sample.protocol, kw)] /\
    kw !! "warm_start" = Some (VStr "/cache/emb_voxceleb.pt").
Proof.
  apply (warm_start_from_hub (hub_world (inr (VStr "/cache/emb_voxceleb.pt")))
           train_from_hub
           (sample_app SpeechActivityDetection Train Sample.configured)
           "emb_voxceleb");
    [apply docopt_only | computed..].
Defined.

Lemma hub_interrupt_passes_through_witness :
  result (hub_world (inl interrupt)) train_from_hub
  = Err interrupt None /\
  calls (events (hub_world (inl interrupt)) train_from_hub)
  = [].
Proof.
  apply (hub_interrupt_passes_through
           (hub_world (inl interrupt)) train_from_hub
           (sample_app SpeechActivityDetection Train Sample.configured)
           "emb_voxceleb");
    [apply docopt_only | computed..].
Defined.
